(** * Schema introspection agents: a shallow embedding

    The two Python modules [src/agents/introspection.py] (the five-method
    MySQL-only agent) and [src/agents/introspection_1.py] (the eleven-method
    agent with a MySQL and a SQL Server worker) are embedded as Rocq
    functions.

    - Python values of the report are the dynamically typed [pyval];
      dictionaries are finite maps ([gmap]) keyed by hashable atoms.
    - The database behind an SQLAlchemy engine is a [Source]: what every
      reflection call and every SQL statement answers (rows or an
      exception) for one unchanged database.
    - Effects are explicit: a computation yields a result or a raised
      exception together with the log of the observable events it caused
      (statements run, reflection calls, lines printed). *)

From stdpp Require Import gmap strings list fin_maps pretty.

(** ** Python values *)

(** Hashable scalars: what a DB-API row holds in a column, and what the
    code uses as dictionary keys. *)
Inductive atom :=
  | ANone
  | AInt (z : Z)
  | AStr (s : string).

Global Instance atom_eq_dec : EqDecision atom.
Proof. solve_decision. Defined.

Definition atom_to_sum (a : atom) : unit + Z + string :=
  match a with
  | ANone => inl (inl tt)
  | AInt z => inl (inr z)
  | AStr s => inr s
  end.

Definition atom_of_sum (x : unit + Z + string) : atom :=
  match x with
  | inl (inl _) => ANone
  | inl (inr z) => AInt z
  | inr s => AStr s
  end.

Global Instance atom_countable : Countable atom.
Proof.
  refine (inj_countable' atom_to_sum atom_of_sum _).
  by intros [].
Defined.

Set Warnings "-register-all,-clear-no-such-hyp".

Inductive pyval :=
  | PAtom (a : atom)
  | PBool (b : bool)
  | PList (l : list pyval)
  | PDict (m : gmap atom pyval).

Definition PStr (s : string) : pyval := PAtom (AStr s).
Definition PNone : pyval := PAtom ANone.

(** A dictionary literal with string keys, later entries overwriting
    earlier ones as in Python. *)
Definition dict_of (kvs : list (string * pyval)) : gmap atom pyval :=
  foldl (fun m kv => <[AStr kv.1 := kv.2]> m) ∅ kvs.

(** [d[key]] on a value that is expected to be a dictionary. *)
Definition field (key : string) (v : pyval) : option pyval :=
  match v with
  | PDict m => m !! AStr key
  | _ => None
  end.

(** [str(x)] for a scalar, as an f-string renders it. *)
Definition py_str (a : atom) : string :=
  match a with
  | ANone => "None"
  | AInt z => pretty z
  | AStr s => s
  end.

(** [bool(x)] for a scalar. *)
Definition py_bool (a : atom) : bool :=
  match a with
  | ANone => false
  | AInt z => negb (Z.eqb z 0)
  | AStr s => negb (String.eqb s "")
  end.

(** ** Exceptions *)

Inductive exn_class :=
  | ValueError
  | KeyError
  | IndexError
  | TypeError
  | NotImplementedError
  | DBAPIError          (* any sqlalchemy.exc error *)
  | KeyboardInterrupt   (* BaseException, not Exception *)
  | SystemExit.         (* BaseException, not Exception *)

Global Instance exn_class_eq_dec : EqDecision exn_class.
Proof. solve_decision. Defined.

Record exn := Raise { exn_cls : exn_class; exn_msg : string }.

Global Instance exn_eq_dec : EqDecision exn.
Proof. solve_decision. Defined.

(** [isinstance(e, Exception)]: what [except Exception] catches.  A bare
    [except:] catches every [exn]. *)
Definition is_Exception (e : exn) : bool :=
  match exn_cls e with
  | KeyboardInterrupt | SystemExit => false
  | _ => true
  end.

Inductive res (A : Type) :=
  | Ok (a : A)
  | Err (e : exn).
Arguments Ok {A} a.
Arguments Err {A} e.

(** ** Observable events *)

Inductive reflect_call :=
  | RSchemaNames
  | RTableNames (schema : option string)
  | RViewNames
  | RColumns (table : string) (schema : option string)
  | RForeignKeys (table : string) (schema : option string)
  | RPkConstraint (table : string) (schema : option string)
  | RIndexes (table : string) (schema : option string).

(** A [print(f"...")] call is logged with the pieces of its f-string: the
    literal text as [PStr] and each hole as the value spliced in. *)
Inductive event :=
  | EvPrint (parts : list pyval)
  | EvCreateEngine (url : string)
  | EvInspect                       (* inspect(engine) *)
  | EvConnect                       (* engine.connect() *)
  | EvExecute (sql : string)        (* conn.execute(text(sql)) *)
  | EvReflect (call : reflect_call)
  | EvCall (method : string).       (* used by instrumented workers only *)

Global Instance reflect_call_eq_dec : EqDecision reflect_call.
Proof. solve_decision. Defined.

(** Does the event touch the database? *)
Definition is_db_access (ev : event) : bool :=
  match ev with
  | EvInspect | EvConnect | EvExecute _ | EvReflect _ => true
  | EvPrint _ | EvCreateEngine _ | EvCall _ => false
  end.

Definition is_print (ev : event) : bool :=
  match ev with
  | EvPrint _ => true
  | _ => false
  end.

(** ** The effect monad: result or exception, plus the event log *)

Definition M (A : Type) : Type := res A * list event.

Global Instance M_ret : MRet M := fun A a => (Ok a, []).

Global Instance M_bind : MBind M := fun A B f c =>
  match c with
  | (Ok a, l) => let '(r, l') := f a in (r, l ++ l')
  | (Err e, l) => (Err e, l)
  end.

Global Instance M_fmap : FMap M := fun A B f c =>
  match c with
  | (Ok a, l) => (Ok (f a), l)
  | (Err e, l) => (Err e, l)
  end.

Definition raise {A} (e : exn) : M A := (Err e, []).
Definition emit (ev : event) : M unit := (Ok tt, [ev]).
Definition print (parts : list pyval) : M unit := emit (EvPrint parts).

(** An environment answer, logged as [ev]. *)
Definition ask {A} (ev : event) (answer : res A) : M A := (answer, [ev]).

(** [try: body  except Exception as e: handler e] *)
Definition try_except {A} (body : M A) (handler : exn -> M A) : M A :=
  match body with
  | (Err e, l) =>
      if is_Exception e then let '(r, l') := handler e in (r, l ++ l')
      else (Err e, l)
  | ok => ok
  end.

(** [try: body  except: handler] (bare except) *)
Definition try_except_all {A} (body : M A) (handler : M A) : M A :=
  match body with
  | (Err e, l) => let '(r, l') := handler in (r, l ++ l')
  | ok => ok
  end.

(** [for x in xs: acc = body acc x] *)
Fixpoint for_each {X A} (xs : list X) (body : A -> X -> M A) (acc : A) : M A :=
  match xs with
  | [] => mret acc
  | x :: xs' => acc' ← body acc x; for_each xs' body acc'
  end.

Definition result {A} (c : M A) : res A := c.1.
Definition log {A} (c : M A) : list event := c.2.

(** ** The database behind an engine *)

(** What SQLAlchemy's reflection returns (the typed dictionaries
    [ReflectedColumn], [ReflectedForeignKeyConstraint],
    [ReflectedPrimaryKeyConstraint], [ReflectedIndex]); [col_type] is the
    [str()] rendering of the column type. *)
Record Column := {
  col_name : string;
  col_type : string;
  col_nullable : bool }.

Record ForeignKey := {
  fk_name : option string;
  fk_constrained_columns : list string;
  fk_referred_schema : option string;
  fk_referred_table : string;
  fk_referred_columns : list string;
  fk_options : list (string * string) }.

(** [pk_constrained_columns = None]: the dictionary has no such key. *)
Record PkConstraint := {
  pk_constrained_columns : option (list string) }.

Record Index := {
  idx_name : option string;
  idx_column_names : list (option string);
  idx_unique : bool }.

Definition row := list atom.

Record Source := {
  url_database : atom;                                   (* engine.url.database *)
  eng_inspect : res unit;                                (* inspect(engine) *)
  eng_connect : res unit;                                (* engine.connect() *)
  conn_execute : string -> res (list row);               (* conn.execute(text(sql)) *)
  insp_get_schema_names : res (list string);
  insp_get_table_names : option string -> res (list string);
  insp_get_view_names : res (list string);
  insp_get_columns : string -> option string -> res (list Column);
  insp_get_foreign_keys : string -> option string -> res (list ForeignKey);
  insp_get_pk_constraint : string -> option string -> res PkConstraint;
  insp_get_indexes : string -> option string -> res (list Index) }.

Section Primitives.
Variable src : Source.

Definition inspect : M unit := ask EvInspect (eng_inspect src).
Definition connect : M unit := ask EvConnect (eng_connect src).
Definition execute (sql : string) : M (list row) :=
  ask (EvExecute sql) (conn_execute src sql).

Definition get_schema_names : M (list string) :=
  ask (EvReflect RSchemaNames) (insp_get_schema_names src).
Definition get_table_names (schema : option string) : M (list string) :=
  ask (EvReflect (RTableNames schema)) (insp_get_table_names src schema).
Definition get_view_names : M (list string) :=
  ask (EvReflect RViewNames) (insp_get_view_names src).
Definition get_columns (table : string) (schema : option string) : M (list Column) :=
  ask (EvReflect (RColumns table schema)) (insp_get_columns src table schema).
Definition get_foreign_keys (table : string) (schema : option string) : M (list ForeignKey) :=
  ask (EvReflect (RForeignKeys table schema)) (insp_get_foreign_keys src table schema).
Definition get_pk_constraint (table : string) (schema : option string) : M PkConstraint :=
  ask (EvReflect (RPkConstraint table schema)) (insp_get_pk_constraint src table schema).
Definition reflect_indexes (table : string) (schema : option string) : M (list Index) :=
  ask (EvReflect (RIndexes table schema)) (insp_get_indexes src table schema).
End Primitives.

(** [result.fetchall()] and [result.fetchone()] on the rows of a statement. *)
Definition fetchall (rows : list row) : list row := rows.
Definition fetchone (rows : list row) : option row := head rows.

(** [row[i]]: IndexError past the end. *)
Definition row_get (r : row) (i : nat) : M atom :=
  match r !! i with
  | Some a => mret a
  | None => raise (Raise IndexError "tuple index out of range")
  end.

(** Truth value of [fetchone()]'s answer: [None] and an empty row are false. *)
Definition row_truthy (r : option row) : bool :=
  match r with
  | Some (_ :: _) => true
  | _ => false
  end.

Definition opt_str (o : option string) : pyval :=
  match o with
  | Some s => PStr s
  | None => PNone
  end.

Definition str_list (l : list string) : pyval := PList (PStr <$> l).

(** A dictionary of strings, as the options of a reflected constraint. *)
Definition str_dict (l : list (string * string)) : pyval :=
  PDict (dict_of ((fun kv => (kv.1, PStr kv.2)) <$> l)).

(** [pk.get('constrained_columns', [])] *)
Definition pk_get_constrained_columns (pk : PkConstraint) : pyval :=
  str_list (default [] (pk_constrained_columns pk)).

(** The column comprehension shared by every [get_tables]. *)
Definition column_entry (c : Column) : pyval :=
  PDict (dict_of [("name", PStr (col_name c));
                  ("type", PStr (col_type c));
                  ("nullable", PBool (col_nullable c))]).

(** The index comprehension of the eleven-method workers. *)
Definition index_entry (i : Index) : pyval :=
  PDict (dict_of [("name", opt_str (idx_name i));
                  ("columns", PList (opt_str <$> idx_column_names i));
                  ("unique", PBool (idx_unique i))]).

Definition NL : string := String (Ascii.ascii_of_nat 10) "".

(** * [introspection_1.py]: the eleven-method agent *)
Module Introspection1.

(** ** The contract: eleven extraction methods

    [BaseIntrospector].  A worker object is the table of its bound
    methods. *)
Module Contract.
Record BaseIntrospector := {
  get_schemas : M pyval;
  get_tables : M pyval;
  get_indexes : M pyval;
  get_user_defined_types : M pyval;
  get_sequences : M pyval;
  get_views : M pyval;
  get_procedures : M pyval;
  get_functions : M pyval;
  get_triggers : M pyval;
  get_events : M pyval;
  get_synonyms : M pyval }.
End Contract.
Abbreviation BaseIntrospector := Contract.BaseIntrospector.

(** ** MySQL worker *)
Module MySQLIntrospector.
Section Worker.
Variable src : Source.

Definition get_schemas : M pyval := mret (PList [PAtom (url_database src)]).
Definition get_user_defined_types : M pyval := mret (PDict ∅).
Definition get_sequences : M pyval := mret (PDict ∅).
Definition get_synonyms : M pyval := mret (PDict ∅).

Definition fk_entry (fk : ForeignKey) : pyval :=
  PDict (dict_of [("referred_table", PStr (fk_referred_table fk));
                  ("constrained_columns", str_list (fk_constrained_columns fk))]).

Definition table_entry (table : string) : M pyval :=
  columns ← get_columns src table None;
  fks ← get_foreign_keys src table None;
  pk ← get_pk_constraint src table None;
  mret (PDict (dict_of [("type", PStr "table");
                        ("columns", PList (column_entry <$> columns));
                        ("primary_key", pk_get_constrained_columns pk);
                        ("foreign_keys", PList (fk_entry <$> fks))])).

Definition get_tables : M pyval :=
  tables ← get_table_names src None;
  schema ← for_each tables (fun schema table =>
    d ← table_entry table;
    mret (<[AStr table := d]> schema)) ∅;
  mret (PDict schema).

Definition get_indexes : M pyval :=
  tables ← get_table_names src None;
  indexes ← for_each tables (fun indexes table =>
    idxs ← reflect_indexes src table None;
    mret (<[AStr table := PList (index_entry <$> idxs)]> indexes)) ∅;
  mret (PDict indexes).

Definition get_views_body (views : gmap atom pyval) (view : string)
    : M (gmap atom pyval) :=
  try_except
    (_ ← connect src;
     rows ← execute src ("SHOW CREATE VIEW " +:+ view);
     let result := fetchone rows in
     if row_truthy result then
       v ← row_get (default [] result) 1;
       mret (<[AStr view := PAtom v]> views)
     else mret views)
    (fun e => mret (<[AStr view := PStr ("Error: " +:+ exn_msg e)]> views)).

Definition get_views : M pyval :=
  names ← get_view_names src;
  views ← for_each names get_views_body ∅;
  mret (PDict views).

(** The enumerate-then-fetch loop of [get_procedures] and
    [get_functions], which differ in the two statements only. *)
Definition routine_body (show_create : string) (acc : gmap atom pyval) (r : row)
    : M (gmap atom pyval) :=
  name ← row_get r 1;
  rows ← execute src (show_create +:+ py_str name);
  let code := fetchone rows in
  v ← (if row_truthy code then a ← row_get (default [] code) 2; mret (PAtom a)
       else mret (PStr "Error"));
  mret (<[name := v]> acc).

Definition get_procedures : M pyval :=
  _ ← connect src;
  rows ← execute src "SHOW PROCEDURE STATUS WHERE Db = DATABASE() AND Type = 'PROCEDURE'";
  procedures ← for_each (fetchall rows) (routine_body "SHOW CREATE PROCEDURE ") ∅;
  mret (PDict procedures).

Definition get_functions : M pyval :=
  _ ← connect src;
  rows ← execute src "SHOW FUNCTION STATUS WHERE Db = DATABASE() AND Type = 'FUNCTION'";
  functions ← for_each (fetchall rows) (routine_body "SHOW CREATE FUNCTION ") ∅;
  mret (PDict functions).

Definition trigger_entry (r : row) : M pyval :=
  event ← row_get r 1;
  table ← row_get r 2;
  timing ← row_get r 4;
  statement ← row_get r 3;
  mret (PDict (dict_of [("event", PAtom event); ("table", PAtom table);
                        ("timing", PAtom timing); ("statement", PAtom statement)])).

Definition get_triggers : M pyval :=
  _ ← connect src;
  rows ← execute src "SHOW TRIGGERS";
  triggers ← for_each (fetchall rows) (fun triggers r =>
    d ← trigger_entry r;
    name ← row_get r 0;
    mret (<[name := d]> triggers)) ∅;
  mret (PDict triggers).

Definition get_events : M pyval :=
  _ ← connect src;
  rows ← execute src "SHOW EVENTS";
  events ← for_each (fetchall rows) (fun events r =>
    schedule ← row_get r 3;
    status ← row_get r 4;
    name ← row_get r 1;
    mret (<[name := PDict (dict_of [("schedule", PAtom schedule);
                                    ("status", PAtom status)])]> events)) ∅;
  mret (PDict events).

Definition methods : BaseIntrospector :=
  {| Contract.get_schemas := get_schemas;
     Contract.get_tables := get_tables;
     Contract.get_indexes := get_indexes;
     Contract.get_user_defined_types := get_user_defined_types;
     Contract.get_sequences := get_sequences;
     Contract.get_views := get_views;
     Contract.get_procedures := get_procedures;
     Contract.get_functions := get_functions;
     Contract.get_triggers := get_triggers;
     Contract.get_events := get_events;
     Contract.get_synonyms := get_synonyms |}.
End Worker.
End MySQLIntrospector.

(** ** SQL Server worker *)
Module SQLServerIntrospector.
Section Worker.
Variable src : Source.

(** [self.get_schemas()], as the list the loops iterate over. *)
Definition get_schemas_list : M (list string) := get_schema_names src.

Definition get_schemas : M pyval :=
  names ← get_schemas_list;
  mret (str_list names).

(** The one-statement catalog readers: [d[key r] = value r] per row. *)
Definition catalog_dict (sql : string) (entry : row -> M (atom * pyval))
    : M (gmap atom pyval) :=
  _ ← connect src;
  rows ← execute src sql;
  for_each (fetchall rows) (fun acc r =>
    kv ← entry r;
    mret (<[kv.1 := kv.2]> acc)) ∅.

Definition get_user_defined_types : M pyval :=
  udts ← catalog_dict
    "SELECT name, max_length, precision FROM sys.types WHERE is_user_defined = 1"
    (fun r =>
       length ← row_get r 1;
       precision ← row_get r 2;
       name ← row_get r 0;
       mret (name, PDict (dict_of [("length", PAtom length);
                                   ("precision", PAtom precision)])));
  mret (PDict udts).

Definition get_sequences : M pyval :=
  sequences ← catalog_dict "SELECT name, current_value FROM sys.sequences"
    (fun r =>
       v ← row_get r 1;
       name ← row_get r 0;
       mret (name, PAtom v));
  mret (PDict sequences).

(** [f"{schema_name}.{table}"] *)
Definition full_name (schema_name table : string) : string :=
  schema_name +:+ "." +:+ table.

Definition fk_entry (fk : ForeignKey) : pyval :=
  PDict (dict_of [("referred_table", PStr (fk_referred_table fk));
                  ("referred_schema", opt_str (fk_referred_schema fk))]).

Definition table_entry (schema_name table : string) : M pyval :=
  columns ← get_columns src table (Some schema_name);
  fks ← get_foreign_keys src table (Some schema_name);
  pk ← get_pk_constraint src table (Some schema_name);
  mret (PDict (dict_of [("type", PStr "table");
                        ("columns", PList (column_entry <$> columns));
                        ("primary_key", pk_get_constrained_columns pk);
                        ("foreign_keys", PList (fk_entry <$> fks))])).

Definition warning (full : string) (e : exn) : list pyval :=
  [PStr "⚠️ Warning: Could not read table "; PStr full; PStr ": "; PStr (exn_msg e)].

Definition get_tables_body (schema_name : string) (schema : gmap atom pyval)
    (table : string) : M (gmap atom pyval) :=
  let full := full_name schema_name table in
  try_except
    (d ← table_entry schema_name table;
     mret (<[AStr full := d]> schema))
    (fun e => _ ← print (warning full e); mret schema).

Definition get_tables : M pyval :=
  schemas ← get_schemas_list;
  schema ← for_each schemas (fun schema schema_name =>
    tables ← get_table_names src (Some schema_name);
    for_each tables (get_tables_body schema_name) schema) ∅;
  mret (PDict schema).

Definition get_indexes_body (schema_name : string) (indexes : gmap atom pyval)
    (table : string) : M (gmap atom pyval) :=
  let full := full_name schema_name table in
  try_except_all
    (idxs ← reflect_indexes src table (Some schema_name);
     mret (<[AStr full := PList (index_entry <$> idxs)]> indexes))
    (mret indexes).

Definition get_indexes : M pyval :=
  schemas ← get_schemas_list;
  indexes ← for_each schemas (fun indexes schema_name =>
    tables ← get_table_names src (Some schema_name);
    for_each tables (get_indexes_body schema_name) indexes) ∅;
  mret (PDict indexes).

Definition module_query (type_filter : string) : string :=
  NL +:+ "            SELECT s.name + '.' + o.name, m.definition " +:+
  NL +:+ "            FROM sys.objects o " +:+
  NL +:+ "            JOIN sys.sql_modules m ON o.object_id = m.object_id " +:+
  NL +:+ "            JOIN sys.schemas s ON o.schema_id = s.schema_id " +:+
  NL +:+ "            WHERE o.type = '" +:+ type_filter +:+ "'" +:+
  NL +:+ "        ".

Definition _get_module (type_filter : string) : M (gmap atom pyval) :=
  catalog_dict (module_query type_filter)
    (fun r =>
       definition ← row_get r 1;
       name ← row_get r 0;
       mret (name, PAtom definition)).

Definition get_views : M pyval := PDict <$> _get_module "V".
Definition get_procedures : M pyval := PDict <$> _get_module "P".
Definition get_triggers : M pyval := PDict <$> _get_module "TR".

(** [f.update(other)]: the entries of [other] win. *)
Definition dict_update (f other : gmap atom pyval) : gmap atom pyval := other ∪ f.

Definition get_functions : M pyval :=
  f ← _get_module "FN";
  f ← dict_update f <$> _get_module "IF";
  f ← dict_update f <$> _get_module "TF";
  mret (PDict f).

Definition get_events : M pyval :=
  jobs ← catalog_dict "SELECT name, enabled, description FROM msdb.dbo.sysjobs"
    (fun r =>
       enabled ← row_get r 1;
       description ← row_get r 2;
       name ← row_get r 0;
       mret (name, PDict (dict_of [("enabled", PBool (py_bool enabled));
                                   ("description", PAtom description)])));
  mret (PDict jobs).

Definition get_synonyms : M pyval :=
  synonyms ← catalog_dict "SELECT name, base_object_name FROM sys.synonyms"
    (fun r =>
       v ← row_get r 1;
       name ← row_get r 0;
       mret (name, PAtom v));
  mret (PDict synonyms).

Definition methods : BaseIntrospector :=
  {| Contract.get_schemas := get_schemas;
     Contract.get_tables := get_tables;
     Contract.get_indexes := get_indexes;
     Contract.get_user_defined_types := get_user_defined_types;
     Contract.get_sequences := get_sequences;
     Contract.get_views := get_views;
     Contract.get_procedures := get_procedures;
     Contract.get_functions := get_functions;
     Contract.get_triggers := get_triggers;
     Contract.get_events := get_events;
     Contract.get_synonyms := get_synonyms |}.
End Worker.
End SQLServerIntrospector.

(** ** Configuration *)

Record Config := {
  cfg_name : string;
  cfg_type : string;
  cfg_url : string }.

(** The process environment and the driver layer: [os.getenv] and
    [create_engine], which yields the database behind a URL or raises. *)
Record Env := {
  getenv : string -> option string;
  create_engine : string -> res Source }.

(** [f"{os.getenv(k)}"]: an unset variable renders as [None]. *)
Definition env_str (env : Env) (k : string) : string :=
  match getenv env k with
  | Some s => s
  | None => "None"
  end.

Definition DB_CONFIGS (env : Env) : gmap string Config :=
  <["2" := {| cfg_name := "SQL Server (AdventureWorks)";
              cfg_type := "mssql";
              cfg_url := "mssql+pyodbc://sa:" +:+ env_str env "MSSQL_SA_PASSWORD" +:+
                         "@localhost:1433/AdventureWorks?driver=ODBC+Driver+17+for+SQL+Server" |}]>
  (<["1" := {| cfg_name := "MySQL (Sakila)";
               cfg_type := "mysql";
               cfg_url := "mysql+mysqlconnector://" +:+ env_str env "MYSQL_USER" +:+ ":" +:+
                          env_str env "MYSQL_PASSWORD" +:+ "@" +:+ env_str env "MYSQL_HOST" +:+
                          ":" +:+ env_str env "MYSQL_PORT" +:+ "/" +:+ env_str env "MYSQL_DB" |}]> ∅).

(** ** The manager *)

(** A worker object: its class and the engine it is bound to. *)
Inductive Worker :=
  | MySQLWorker (engine : Source)
  | SQLServerWorker (engine : Source).

(** Method lookup on a worker object. *)
Definition methods (w : Worker) : BaseIntrospector :=
  match w with
  | MySQLWorker engine => MySQLIntrospector.methods engine
  | SQLServerWorker engine => SQLServerIntrospector.methods engine
  end.

(** [BaseIntrospector.__init__], run by both constructors: it calls
    [inspect(engine)]. *)
Definition new_worker (cls : Source -> Worker) (engine : Source) : M Worker :=
  _ ← inspect engine;
  mret (cls engine).

Record IntrospectionAgent := {
  db_type : string;
  db_name : string;
  engine : Source;
  worker : Worker }.

(** [IntrospectionAgent.__init__], with the configuration table it reads
    as a parameter. *)
Definition init_with (configs : gmap string Config) (env : Env) (config_key : string)
    : M IntrospectionAgent :=
  match configs !! config_key with
  | None => raise (Raise ValueError "Invalid Configuration Key")
  | Some config =>
      let type := cfg_type config in
      let name := cfg_name config in
      _ ← print [PStr (NL +:+ "🔌 Connecting to "); PStr name; PStr "..."];
      engine ← ask (EvCreateEngine (cfg_url config)) (create_engine env (cfg_url config));
      worker ← (if String.eqb type "mysql" then new_worker MySQLWorker engine
                else if String.eqb type "mssql" then new_worker SQLServerWorker engine
                else raise (Raise ValueError ("Unknown DB Type: " +:+ type)));
      mret {| db_type := type; db_name := name; engine := engine; worker := worker |}
  end.

Definition __init__ (env : Env) (config_key : string) : M IntrospectionAgent :=
  init_with (DB_CONFIGS env) env config_key.

(** [d[key]] *)
Definition getitem (d : pyval) (key : string) : M pyval :=
  match d with
  | PDict m =>
      match m !! AStr key with
      | Some v => mret v
      | None => raise (Raise KeyError ("'" +:+ key +:+ "'"))
      end
  | _ => raise (Raise TypeError "object is not subscriptable")
  end.

(** [len(x)] *)
Definition py_len (v : pyval) : M Z :=
  match v with
  | PList l => mret (Z.of_nat (length l))
  | PDict m => mret (Z.of_nat (size m))
  | PAtom (AStr s) => mret (Z.of_nat (String.length s))
  | _ => raise (Raise TypeError "object has no len()")
  end.

(** [x[:3]] *)
Definition slice3 (v : pyval) : M pyval :=
  match v with
  | PList l => mret (PList (take 3 l))
  | PAtom (AStr s) => mret (PStr (String.substring 0 3 s))
  | PDict _ => raise (Raise TypeError "unhashable type: 'slice'")
  | _ => raise (Raise TypeError "object is not subscriptable")
  end.

(** [s * n] *)
Fixpoint str_mul (s : string) (n : nat) : string :=
  match n with
  | O => ""
  | S n' => s +:+ str_mul s n'
  end.

Definition PInt (z : Z) : pyval := PAtom (AInt z).

(** [len(data[k1][k2])] *)
Definition len_at2 (data : pyval) (k1 k2 : string) : M Z :=
  d ← getitem data k1;
  v ← getitem d k2;
  py_len v.

Definition count_or_None (n : Z) : pyval :=
  if (0 <? n)%Z then PInt n else PStr "None".

Definition _print_pretty_summary (name : string) (data : pyval) : M unit :=
  _ ← print [PStr (NL +:+ str_mul "=" 50)];
  _ ← print [PStr "📊 INTROSPECTION REPORT: "; PStr name];
  _ ← print [PStr (str_mul "=" 50)];
  _ ← print [PStr (NL +:+ "🏗️  STRUCTURE")];
  schemas ← getitem data "schemas";
  n ← py_len schemas;
  schemas ← getitem data "schemas";
  first ← slice3 schemas;
  _ ← print [PStr "   ├─ Schemas Found:  "; PInt n; PStr " "; first; PStr "..."];
  tables ← getitem data "tables";
  n ← py_len tables;
  _ ← print [PStr "   ├─ Tables:         "; PInt n];
  indexes ← getitem data "indexes";
  n ← py_len indexes;
  _ ← print [PStr "   ├─ Indexes:        "; PInt n];
  n ← len_at2 data "dependencies" "sequences";
  _ ← print [PStr "   └─ Sequences:      "; PInt n];
  _ ← print [PStr (NL +:+ "🧠 LOGIC")];
  n ← len_at2 data "logic" "views";
  _ ← print [PStr "   ├─ Views:          "; PInt n];
  n ← len_at2 data "logic" "procedures";
  _ ← print [PStr "   ├─ Procedures:     "; PInt n];
  n ← len_at2 data "logic" "functions";
  _ ← print [PStr "   ├─ Functions:      "; PInt n];
  n ← len_at2 data "logic" "triggers";
  _ ← print [PStr "   └─ Triggers:       "; PInt n];
  _ ← print [PStr (NL +:+ "⚠️  WARNINGS")];
  events_count ← len_at2 data "warnings" "events";
  synonyms_count ← len_at2 data "warnings" "synonyms";
  _ ← print [PStr "   ├─ Events/Jobs:    "; count_or_None events_count];
  _ ← print [PStr "   └─ Synonyms:       "; count_or_None synonyms_count];
  print [PStr (str_mul "=" 50 +:+ NL)].

(** The report of [run_scan], from the eleven extraction results. *)
Definition report (name type : string)
    (schemas udts sequences tables indexes views procedures functions triggers
     events synonyms : pyval) : pyval :=
  PDict (dict_of
    [("metadata", PDict (dict_of [("database", PStr name); ("type", PStr type)]));
     ("schemas", schemas);
     ("dependencies", PDict (dict_of [("user_defined_types", udts);
                                      ("sequences", sequences)]));
     ("tables", tables);
     ("indexes", indexes);
     ("logic", PDict (dict_of [("views", views); ("procedures", procedures);
                               ("functions", functions); ("triggers", triggers)]));
     ("warnings", PDict (dict_of [("events", events); ("synonyms", synonyms)]))]).

(** [run_scan] for a worker given as its method table. *)
Definition run_scan_with (name type : string) (w : BaseIntrospector) : M pyval :=
  _ ← print [PStr "🔍 Starting Deep Scan on "; PStr name; PStr "..."];
  schemas ← Contract.get_schemas w;
  udts ← Contract.get_user_defined_types w;
  sequences ← Contract.get_sequences w;
  tables ← Contract.get_tables w;
  indexes ← Contract.get_indexes w;
  views ← Contract.get_views w;
  procedures ← Contract.get_procedures w;
  functions ← Contract.get_functions w;
  triggers ← Contract.get_triggers w;
  events ← Contract.get_events w;
  synonyms ← Contract.get_synonyms w;
  let scan_results :=
    report name type schemas udts sequences tables indexes views procedures
           functions triggers events synonyms in
  _ ← _print_pretty_summary name scan_results;
  mret scan_results.

Definition run_scan (self : IntrospectionAgent) : M pyval :=
  run_scan_with (db_name self) (db_type self) (methods (worker self)).

End Introspection1.

(** * [introspection.py]: the five-method, MySQL-only agent *)
Module Introspection.

Record BaseIntrospector := {
  get_tables : M pyval;
  get_views : M pyval;
  get_procedures : M pyval;
  get_functions : M pyval;
  get_triggers : M pyval }.

(** ** MySQL worker *)
Module MySQLIntrospector.
Section Worker.
Variable src : Source.

(** A reflected foreign key, stored in the report as it is. *)
Definition fk_raw (fk : ForeignKey) : pyval :=
  PDict (dict_of [("name", opt_str (fk_name fk));
                  ("constrained_columns", str_list (fk_constrained_columns fk));
                  ("referred_schema", opt_str (fk_referred_schema fk));
                  ("referred_table", PStr (fk_referred_table fk));
                  ("referred_columns", str_list (fk_referred_columns fk));
                  ("options", str_dict (fk_options fk))]).

Definition index_entry (i : Index) : pyval :=
  PDict (dict_of [("name", opt_str (idx_name i));
                  ("columns", PList (opt_str <$> idx_column_names i))]).

Definition table_entry (table : string) : M pyval :=
  columns ← get_columns src table None;
  fks ← get_foreign_keys src table None;
  pk ← get_pk_constraint src table None;
  indexes ← reflect_indexes src table None;
  mret (PDict (dict_of [("type", PStr "table");
                        ("columns", PList (column_entry <$> columns));
                        ("primary_key", pk_get_constrained_columns pk);
                        ("foreign_keys", PList (fk_raw <$> fks));
                        ("indexes", PList (index_entry <$> indexes))])).

Definition get_tables : M pyval :=
  table_names ← get_table_names src None;
  schema ← for_each table_names (fun schema table =>
    d ← table_entry table;
    mret (<[AStr table := d]> schema)) ∅;
  mret (PDict schema).

Definition get_views_body (views : gmap atom pyval) (view : string)
    : M (gmap atom pyval) :=
  try_except
    (rows ← execute src ("SHOW CREATE VIEW " +:+ view);
     let result := fetchone rows in
     if row_truthy result then
       v ← row_get (default [] result) 1;
       mret (<[AStr view := PAtom v]> views)
     else mret views)
    (fun e => mret (<[AStr view := PStr ("Error extracting view: " +:+ exn_msg e)]> views)).

Definition get_views : M pyval :=
  view_names ← get_view_names src;
  _ ← connect src;
  views ← for_each view_names get_views_body ∅;
  mret (PDict views).

(** The per-routine step of [get_procedures] and [get_functions]: the
    fetch runs inside [try], a failure becomes a placeholder. *)
Definition routine_body (show_create placeholder : string)
    (acc : gmap atom pyval) (r : row) : M (gmap atom pyval) :=
  name ← row_get r 1;
  try_except
    (rows ← execute src (show_create +:+ py_str name);
     let code_result := fetchone rows in
     if row_truthy code_result then
       a ← row_get (default [] code_result) 2;
       mret (<[name := PAtom a]> acc)
     else mret acc)
    (fun e => mret (<[name := PStr (placeholder +:+ exn_msg e)]> acc)).

Definition get_procedures : M pyval :=
  _ ← connect src;
  procs ← execute src "SHOW PROCEDURE STATUS WHERE Db = DATABASE() AND Type = 'PROCEDURE'";
  procedures ← for_each (fetchall procs)
    (routine_body "SHOW CREATE PROCEDURE " "Error extracting procedure: ") ∅;
  mret (PDict procedures).

Definition get_functions : M pyval :=
  _ ← connect src;
  funcs ← execute src "SHOW FUNCTION STATUS WHERE Db = DATABASE() AND Type = 'FUNCTION'";
  functions ← for_each (fetchall funcs)
    (routine_body "SHOW CREATE FUNCTION " "Error extracting function: ") ∅;
  mret (PDict functions).

(** [f"CREATE TRIGGER {trigger_name} {row[4]} {row[1]} ON {row[2]} FOR EACH ROW {row[3]}"] *)
Definition definition_full (trigger_name timing event table statement : atom) : string :=
  "CREATE TRIGGER " +:+ py_str trigger_name +:+ " " +:+ py_str timing +:+ " " +:+
  py_str event +:+ " ON " +:+ py_str table +:+ " FOR EACH ROW " +:+ py_str statement.

Definition trigger_entry (trigger_name : atom) (r : row) : M pyval :=
  event ← row_get r 1;
  table ← row_get r 2;
  timing ← row_get r 4;
  statement ← row_get r 3;
  mret (PDict (dict_of
    [("event", PAtom event); ("table", PAtom table);
     ("timing", PAtom timing); ("statement", PAtom statement);
     ("definition_full",
      PStr (definition_full trigger_name timing event table statement))])).

Definition get_triggers : M pyval :=
  _ ← connect src;
  results ← execute src "SHOW TRIGGERS";
  triggers ← for_each (fetchall results) (fun triggers r =>
    trigger_name ← row_get r 0;
    d ← trigger_entry trigger_name r;
    mret (<[trigger_name := d]> triggers)) ∅;
  mret (PDict triggers).

Definition methods : BaseIntrospector :=
  {| Introspection.get_tables := get_tables;
     Introspection.get_views := get_views;
     Introspection.get_procedures := get_procedures;
     Introspection.get_functions := get_functions;
     Introspection.get_triggers := get_triggers |}.
End Worker.
End MySQLIntrospector.

(** ** The manager *)

(** [needle in hay] on strings. *)
Fixpoint contains (needle hay : string) : bool :=
  String.prefix needle hay ||
  match hay with
  | EmptyString => false
  | String _ hay' => contains needle hay'
  end.

(** The URL [__init__] builds from the environment. *)
Definition db_uri_of (env : Introspection1.Env) : string :=
  "mysql+mysqlconnector://" +:+ Introspection1.env_str env "MYSQL_USER" +:+ ":" +:+
  Introspection1.env_str env "MYSQL_PASSWORD" +:+ "@" +:+
  Introspection1.env_str env "MYSQL_HOST" +:+ ":" +:+
  Introspection1.env_str env "MYSQL_PORT" +:+ "/" +:+ Introspection1.env_str env "MYSQL_DB".

(** [make_url(url).drivername] for a URL [create_engine] has accepted:
    the text before ["://"]. *)
Fixpoint drivername (url : string) : string :=
  match url with
  | EmptyString => EmptyString
  | String c rest =>
      if String.prefix "://" url then EmptyString else String c (drivername rest)
  end.

Record IntrospectionAgent := {
  db_uri : string;
  engine : Source;
  driver_name : string;
  worker : BaseIntrospector }.

(** [IntrospectionAgent.__init__]: engine, driver detection, then the
    routing, in which only the MySQL strategy yields a worker
    ([BaseIntrospector.__init__] inspects the engine). *)
Definition __init__ (env : Introspection1.Env) : M IntrospectionAgent :=
  let db_uri := db_uri_of env in
  engine ← ask (EvCreateEngine db_uri) (Introspection1.create_engine env db_uri);
  let driver_name := drivername db_uri in
  _ ← print [PStr "🔌 Connection Established. Driver Detected: ["; PStr driver_name;
             PStr "]"];
  worker ←
    (if contains "mysql" driver_name then
       _ ← print [PStr "🚀 Selecting Strategy: MySQL Worker"];
       _ ← inspect engine;
       mret (MySQLIntrospector.methods engine)
     else if contains "postgresql" driver_name then
       _ ← print [PStr "🚀 Selecting Strategy: PostgreSQL Worker"];
       raise (Raise NotImplementedError "Postgres worker is planned for Phase 3.")
     else if contains "mssql" driver_name then
       _ ← print [PStr "🚀 Selecting Strategy: SQL Server Worker"];
       raise (Raise NotImplementedError "SQL Server worker is planned for Phase 3.")
     else
       raise (Raise ValueError ("❌ No worker strategy found for driver: " +:+ driver_name)));
  mret {| db_uri := db_uri; engine := engine; driver_name := driver_name;
          worker := worker |}.

End Introspection.

(** * Sample databases *)

Definition db_error (msg : string) : exn := Raise DBAPIError msg.

(** A reachable database with no object in it. *)
Definition quiet_source : Source :=
  {| url_database := AStr "sakila";
     eng_inspect := Ok tt;
     eng_connect := Ok tt;
     conn_execute := fun _ => Ok [];
     insp_get_schema_names := Ok [];
     insp_get_table_names := fun _ => Ok [];
     insp_get_view_names := Ok [];
     insp_get_columns := fun _ _ => Ok [];
     insp_get_foreign_keys := fun _ _ => Ok [];
     insp_get_pk_constraint := fun _ _ => Ok {| pk_constrained_columns := Some [] |};
     insp_get_indexes := fun _ _ => Ok [] |}.

(** An environment with no variable set, every URL leading to [src]. *)
Definition env_of (src : Source) : Introspection1.Env :=
  {| Introspection1.getenv := fun _ => None;
     Introspection1.create_engine := fun _ => Ok src |}.

(** An instrumented worker: every method logs its own name and returns
    an empty result. *)
Definition probe (method : string) (v : pyval) : M pyval :=
  _ ← emit (EvCall method); mret v.

Definition probe_worker : Introspection1.BaseIntrospector :=
  {| Introspection1.Contract.get_schemas := probe "get_schemas" (PList []);
     Introspection1.Contract.get_tables := probe "get_tables" (PDict ∅);
     Introspection1.Contract.get_indexes := probe "get_indexes" (PDict ∅);
     Introspection1.Contract.get_user_defined_types := probe "get_user_defined_types" (PDict ∅);
     Introspection1.Contract.get_sequences := probe "get_sequences" (PDict ∅);
     Introspection1.Contract.get_views := probe "get_views" (PDict ∅);
     Introspection1.Contract.get_procedures := probe "get_procedures" (PDict ∅);
     Introspection1.Contract.get_functions := probe "get_functions" (PDict ∅);
     Introspection1.Contract.get_triggers := probe "get_triggers" (PDict ∅);
     Introspection1.Contract.get_events := probe "get_events" (PDict ∅);
     Introspection1.Contract.get_synonyms := probe "get_synonyms" (PDict ∅) |}.

(** The method names logged by instrumented workers, in order. *)
Definition calls_of (l : list event) : list string :=
  omap (fun ev => match ev with EvCall m => Some m | _ => None end) l.

(** * Specification devices *)

(** The mapping a loop builds when it stores [val x] under [key x] for
    the elements that have a value and skips the others. *)
Section Collect.
Context {X : Type} (key : X -> atom) (val : X -> option pyval).

Definition collect_step (m : gmap atom pyval) (x : X) : gmap atom pyval :=
  match val x with
  | Some v => <[key x := v]> m
  | None => m
  end.

Definition collect (xs : list X) (m0 : gmap atom pyval) : gmap atom pyval :=
  foldl collect_step m0 xs.
End Collect.

Definition ok_value {A} (r : res A) : option A :=
  match r with
  | Ok a => Some a
  | Err _ => None
  end.






(** A SQL Server database with a scalar function [c] in schema [a.b]
    and an inline function [b.c] in schema [a]: the catalog reads give
    both the qualified name [a.b.c]. *)
Definition dotted : Source :=
  {| url_database := AStr "dotted";
     eng_inspect := Ok tt;
     eng_connect := Ok tt;
     conn_execute := fun sql =>
       if String.eqb sql (Introspection1.SQLServerIntrospector.module_query "FN")
       then Ok [[AStr "a.b.c";
                 AStr "CREATE FUNCTION [a.b].[c]() RETURNS int AS BEGIN RETURN 1 END"]]
       else if String.eqb sql (Introspection1.SQLServerIntrospector.module_query "IF")
       then Ok [[AStr "a.b.c";
                 AStr "CREATE FUNCTION [a].[b.c]() RETURNS TABLE AS RETURN SELECT 1 AS x"]]
       else Ok [];
     insp_get_schema_names := Ok ["a.b"; "a"];
     insp_get_table_names := fun _ => Ok [];
     insp_get_view_names := Ok [];
     insp_get_columns := fun _ _ => Ok [];
     insp_get_foreign_keys := fun _ _ => Ok [];
     insp_get_pk_constraint := fun _ _ => Ok {| pk_constrained_columns := None |};
     insp_get_indexes := fun _ _ => Ok [] |}.

(** A SQL Server database with schemas Person and Sales.  Table
    Sales.Orders cannot be read: its columns and its indexes raise. *)
Definition adventure : Source :=
  {| url_database := AStr "AdventureWorks";
     eng_inspect := Ok tt;
     eng_connect := Ok tt;
     conn_execute := fun sql =>
       if String.eqb sql (Introspection1.SQLServerIntrospector.module_query "FN")
       then Ok [[AStr "dbo.ufnLeadingZeros"; AStr "CREATE FUNCTION dbo.ufnLeadingZeros"]]
       else if String.eqb sql (Introspection1.SQLServerIntrospector.module_query "IF")
       then Ok [[AStr "dbo.ufnGetContact"; AStr "CREATE FUNCTION dbo.ufnGetContact"]]
       else if String.eqb sql (Introspection1.SQLServerIntrospector.module_query "TF")
       then Ok [[AStr "dbo.ufnGetOrders"; AStr "CREATE FUNCTION dbo.ufnGetOrders"]]
       else Ok [];
     insp_get_schema_names := Ok ["Person"; "Sales"];
     insp_get_table_names := fun schema =>
       if bool_decide (schema = Some "Person") then Ok ["Address"]
       else if bool_decide (schema = Some "Sales") then Ok ["Orders"; "Customer"]
       else Ok [];
     insp_get_view_names := Ok [];
     insp_get_columns := fun table _ =>
       if String.eqb table "Orders" then Err (db_error "unsupported type")
       else Ok [{| col_name := "id"; col_type := "INTEGER"; col_nullable := false |}];
     insp_get_foreign_keys := fun table _ =>
       if String.eqb table "Customer"
       then Ok [{| fk_name := Some "FK_Customer_Address";
                   fk_constrained_columns := ["address_id"];
                   fk_referred_schema := Some "Person";
                   fk_referred_table := "Address";
                   fk_referred_columns := ["id"];
                   fk_options := [] |}]
       else Ok [];
     insp_get_pk_constraint := fun _ _ => Ok {| pk_constrained_columns := Some ["id"] |};
     insp_get_indexes := fun table _ =>
       if String.eqb table "Orders" then Err (Raise KeyboardInterrupt "")
       else Ok [{| idx_name := Some "ix_id"; idx_column_names := [Some "id"];
                   idx_unique := true |}] |}.

(** A Python mapping: a dictionary; its keys, listed, never repeat. *)
Definition is_mapping (v : pyval) : Prop :=
  exists m : gmap atom pyval, v = PDict m /\ NoDup (map_to_list m).*1.


Definition returns_mapping (c : M pyval) : Prop :=
  forall v, result c = Ok v -> is_mapping v.

(** The ten extraction methods other than [get_schemas]. *)
Definition mapping_methods (w : Introspection1.BaseIntrospector) : list (M pyval) :=
  [Introspection1.Contract.get_user_defined_types w;
   Introspection1.Contract.get_sequences w;
   Introspection1.Contract.get_tables w;
   Introspection1.Contract.get_indexes w;
   Introspection1.Contract.get_views w;
   Introspection1.Contract.get_procedures w;
   Introspection1.Contract.get_functions w;
   Introspection1.Contract.get_triggers w;
   Introspection1.Contract.get_events w;
   Introspection1.Contract.get_synonyms w].

(** A MySQL database with two procedures, one of which cannot be shown,
    a view that cannot be shown either, and one trigger. *)
Definition sakila : Source :=
  {| url_database := AStr "sakila";
     eng_inspect := Ok tt;
     eng_connect := Ok tt;
     conn_execute := fun sql =>
       if String.eqb sql "SHOW PROCEDURE STATUS WHERE Db = DATABASE() AND Type = 'PROCEDURE'"
       then Ok [[AStr "sakila"; AStr "film_in_stock"; AStr "PROCEDURE"];
                [AStr "sakila"; AStr "rewards_report"; AStr "PROCEDURE"]]
       else if String.eqb sql "SHOW CREATE PROCEDURE film_in_stock"
       then Err (db_error "execute command denied to user")
       else if String.eqb sql "SHOW CREATE PROCEDURE rewards_report"
       then Ok [[AStr "rewards_report"; AStr ""; AStr "CREATE PROCEDURE rewards_report() BEGIN END"]]
       else if String.eqb sql "SHOW CREATE VIEW actor_info"
       then Err (db_error "view references invalid table")
       else if String.eqb sql "SHOW TRIGGERS"
       then Ok [[AStr "ins_film"; AStr "INSERT"; AStr "film";
                 AStr "BEGIN INSERT INTO film_text VALUES (new.film_id); END";
                 AStr "AFTER"]]
       else Ok [];
     insp_get_schema_names := Ok ["sakila"];
     insp_get_table_names := fun _ => Ok ["film"; "actor"];
     insp_get_view_names := Ok ["actor_info"];
     insp_get_columns := fun table _ =>
       Ok [{| col_name := table +:+ "_id"; col_type := "SMALLINT"; col_nullable := false |}];
     insp_get_foreign_keys := fun table _ =>
       if String.eqb table "film"
       then Ok [{| fk_name := Some "fk_film_language";
                   fk_constrained_columns := ["language_id"];
                   fk_referred_schema := None;
                   fk_referred_table := "language";
                   fk_referred_columns := ["language_id"];
                   fk_options := [("onupdate", "CASCADE")] |}]
       else Ok [];
     insp_get_pk_constraint := fun table _ =>
       Ok {| pk_constrained_columns := Some [table +:+ "_id"] |};
     insp_get_indexes := fun _ _ => Ok [] |}.

(** The columns of a [SHOW TRIGGERS] row the workers read. *)
Definition trigger_row (r : row) (name event table timing statement : atom) : Prop :=
  r !! 0 = Some name /\ r !! 1 = Some event /\ r !! 2 = Some table /\
  r !! 4 = Some timing /\ r !! 3 = Some statement.

(** The entries of [m] are descriptors [mk ...] of rows of the listing. *)
Definition descriptors_from (rows : list row)
    (mk : atom -> atom -> atom -> atom -> atom -> pyval) (m : gmap atom pyval) : Prop :=
  forall name d, m !! name = Some d ->
    exists r event table timing statement,
      r ∈ rows /\ trigger_row r name event table timing statement /\
      d = mk name event table timing statement.

(** What the eleven-method MySQL worker stores for a routine: the third
    column of the row its SHOW CREATE statement returns, the literal
    [Error] when it returns no row. *)
Definition routine_value (src : Source) (show_create : string) (name : atom) : res pyval :=
  match conn_execute src (show_create +:+ py_str name) with
  | Err e => Err e
  | Ok rows =>
      match fetchone rows with
      | Some (c :: cs) =>
          match (c :: cs) !! 2 with
          | Some a => Ok (PAtom a)
          | None => Err (Raise IndexError "tuple index out of range")
          end
      | _ => Ok (PStr "Error")
      end
  end.

(** The name column of a listing row. *)
Definition name_column (i : nat) (r : row) : atom := default ANone (r !! i).

(** The contract of an enumerate-then-fetch method [c] that lists with
    [list_sql] and fetches with [show_create]: it returns only if the
    connection, the listing and every fetch succeed, then with the value
    of every listed routine under its name and nothing else; and it does
    return in that case. *)
Definition all_or_nothing (src : Source) (list_sql show_create : string)
    (c : M pyval) : Prop :=
  (forall v, result c = Ok v ->
     exists listed m,
       eng_connect src = Ok tt /\ conn_execute src list_sql = Ok listed /\
       v = PDict m /\
       (forall r, r ∈ listed ->
          exists name d, r !! 1 = Some name /\
            routine_value src show_create name = Ok d /\ m !! name = Some d) /\
       (forall k, is_Some (m !! k) -> exists r, r ∈ listed /\ r !! 1 = Some k)) /\
  (forall listed,
     eng_connect src = Ok tt -> conn_execute src list_sql = Ok listed ->
     (forall r, r ∈ listed ->
        exists name d, r !! 1 = Some name /\ routine_value src show_create name = Ok d) ->
     exists m, result c = Ok (PDict m)).

(** A MySQL database in good order but for one view: a procedure, a
    function whose definition is not shown, three views of which one is
    broken and one yields no row, two tables, one event. *)
Definition world : Source :=
  {| url_database := AStr "world";
     eng_inspect := Ok tt;
     eng_connect := Ok tt;
     conn_execute := fun sql =>
       if String.eqb sql "SHOW PROCEDURE STATUS WHERE Db = DATABASE() AND Type = 'PROCEDURE'"
       then Ok [[AStr "world"; AStr "refresh"; AStr "PROCEDURE"]]
       else if String.eqb sql "SHOW CREATE PROCEDURE refresh"
       then Ok [[AStr "refresh"; AStr ""; AStr "CREATE PROCEDURE refresh() BEGIN END"]]
       else if String.eqb sql "SHOW FUNCTION STATUS WHERE Db = DATABASE() AND Type = 'FUNCTION'"
       then Ok [[AStr "world"; AStr "area"; AStr "FUNCTION"]]
       else if String.eqb sql "SHOW CREATE VIEW big_cities"
       then Ok [[AStr "big_cities"; AStr "CREATE VIEW big_cities AS SELECT 1"]]
       else if String.eqb sql "SHOW CREATE VIEW lost"
       then Err (db_error "references invalid table")
       else if String.eqb sql "SHOW EVENTS"
       then Ok [[AStr "world"; AStr "nightly"; AStr "root@%"; AStr "SYSTEM";
                 AStr "RECURRING"; ANone; AStr "1"; AStr "DAY"; ANone; ANone;
                 AStr "ENABLED"]]
       else Ok [];
     insp_get_schema_names := Ok ["world"];
     insp_get_table_names := fun _ => Ok ["film"; "actor"];
     insp_get_view_names := Ok ["big_cities"; "lost"; "hidden"];
     insp_get_columns := fun table _ =>
       Ok [{| col_name := table +:+ "_id"; col_type := "SMALLINT"; col_nullable := false |}];
     insp_get_foreign_keys := fun _ _ => Ok [];
     insp_get_pk_constraint := fun table _ =>
       if String.eqb table "film" then Ok {| pk_constrained_columns := Some ["film_id"] |}
       else Ok {| pk_constrained_columns := None |};
     insp_get_indexes := fun table _ =>
       if String.eqb table "film"
       then Ok [{| idx_name := Some "idx_title"; idx_column_names := [Some "title"];
                   idx_unique := false |}]
       else Ok [] |}.

(** What a guarded fetch stores: column [col] of the first row of the
    statement, a placeholder made of [prefix] and the exception's message
    when the statement raises or the row is too short, and nothing when
    the statement returns no row. *)
Definition fetch_value (src : Source) (sql : string) (col : nat) (prefix : string)
    : option pyval :=
  match conn_execute src sql with
  | Err e => Some (PStr (prefix +:+ exn_msg e))
  | Ok rows =>
      match fetchone rows with
      | Some (c :: cs) =>
          match (c :: cs) !! col with
          | Some a => Some (PAtom a)
          | None => Some (PStr (prefix +:+ "tuple index out of range"))
          end
      | _ => None
      end
  end.

(** What the eleven-method MySQL worker stores for a view: the connection
    is opened per view, inside the guard. *)
Definition view_value (src : Source) (view : string) : option pyval :=
  match eng_connect src with
  | Err e => Some (PStr ("Error: " +:+ exn_msg e))
  | Ok _ => fetch_value src ("SHOW CREATE VIEW " +:+ view) 1 "Error: "
  end.

(** The contract of a guarded enumerate-then-fetch method [c] of the
    five-method worker. *)
Definition absorbs_failures (src : Source) (list_sql show_create placeholder : string)
    (c : M pyval) : Prop :=
  forall listed,
    eng_connect src = Ok tt ->
    conn_execute src list_sql = Ok listed ->
    (forall r, r ∈ listed -> is_Some (r !! 1)) ->
    (forall r name e, r ∈ listed -> r !! 1 = Some name ->
       conn_execute src (show_create +:+ py_str name) = Err e -> is_Exception e = true) ->
    exists m,
      result c = Ok (PDict m) /\
      (forall r name, r ∈ listed -> r !! 1 = Some name ->
         m !! name = fetch_value src (show_create +:+ py_str name) 2 placeholder) /\
      (forall k, is_Some (m !! k) -> exists r, r ∈ listed /\ r !! 1 = Some k).

(** The contract of an unguarded listing method [c]: it returns only if
    the listing and the extraction of every listed object succeed, then
    with every listed object's value under its key and nothing else; and
    it does return in that case. *)
Definition unguarded {X} (listing : res (list X)) (key : X -> atom)
    (value : X -> res pyval) (c : M pyval) : Prop :=
  (forall v, result c = Ok v ->
     exists xs m,
       listing = Ok xs /\ v = PDict m /\
       (forall x, x ∈ xs -> exists d, value x = Ok d /\ m !! key x = Some d) /\
       (forall k, is_Some (m !! k) -> exists x, x ∈ xs /\ key x = k)) /\
  (forall xs, listing = Ok xs ->
     (forall x, x ∈ xs -> exists d, value x = Ok d) ->
     exists m, result c = Ok (PDict m)).

(** The three reflection calls made for one table, in order. *)
Definition reflect_table (src : Source) (table : string) (schema : option string)
    : res (list Column * list ForeignKey * PkConstraint) :=
  match insp_get_columns src table schema with
  | Err e => Err e
  | Ok columns =>
      match insp_get_foreign_keys src table schema with
      | Err e => Err e
      | Ok fks =>
          match insp_get_pk_constraint src table schema with
          | Err e => Err e
          | Ok pk => Ok (columns, fks, pk)
          end
      end
  end.

(** The table descriptor of the eleven-method MySQL worker. *)
Definition mysql_table_value (src : Source) (table : string) : res pyval :=
  match reflect_table src table None with
  | Err e => Err e
  | Ok (columns, fks, pk) =>
      Ok (PDict (dict_of
        [("type", PStr "table");
         ("columns", PList (column_entry <$> columns));
         ("primary_key", str_list (default [] (pk_constrained_columns pk)));
         ("foreign_keys",
          PList ((fun fk =>
            PDict (dict_of
              [("referred_table", PStr (fk_referred_table fk));
               ("constrained_columns", str_list (fk_constrained_columns fk))]))
            <$> fks))]))
  end.

Definition mysql_indexes_value (src : Source) (table : string) : res pyval :=
  match insp_get_indexes src table None with
  | Err e => Err e
  | Ok idxs => Ok (PList (index_entry <$> idxs))
  end.









(** A SQL Server database in which the tables of schema [hr] cannot be
    listed. *)
Definition locked : Source :=
  {| url_database := AStr "locked";
     eng_inspect := Ok tt;
     eng_connect := Ok tt;
     conn_execute := fun _ => Ok [];
     insp_get_schema_names := Ok ["dbo"; "hr"];
     insp_get_table_names := fun schema =>
       if bool_decide (schema = Some "hr") then Err (db_error "permission denied")
       else Ok ["jobs"];
     insp_get_view_names := Ok [];
     insp_get_columns := fun _ _ => Ok [];
     insp_get_foreign_keys := fun _ _ => Ok [];
     insp_get_pk_constraint := fun _ _ => Ok {| pk_constrained_columns := None |};
     insp_get_indexes := fun _ _ => Ok [] |}.

(** The eleven extraction methods in the order [run_scan] calls them. *)
Definition scan_order (w : Introspection1.BaseIntrospector) : list (M pyval) :=
  [Introspection1.Contract.get_schemas w;
   Introspection1.Contract.get_user_defined_types w;
   Introspection1.Contract.get_sequences w;
   Introspection1.Contract.get_tables w;
   Introspection1.Contract.get_indexes w;
   Introspection1.Contract.get_views w;
   Introspection1.Contract.get_procedures w;
   Introspection1.Contract.get_functions w;
   Introspection1.Contract.get_triggers w;
   Introspection1.Contract.get_events w;
   Introspection1.Contract.get_synonyms w].

(** The lines [_print_pretty_summary] prints for a report with the given
    schemas and object counts. *)
Definition summary_lines (name : string) (schemas : list pyval)
    (tables indexes sequences views procedures functions triggers events synonyms : Z)
    : list event :=
  [EvPrint [PStr (NL +:+ Introspection1.str_mul "=" 50)];
   EvPrint [PStr "📊 INTROSPECTION REPORT: "; PStr name];
   EvPrint [PStr (Introspection1.str_mul "=" 50)];
   EvPrint [PStr (NL +:+ "🏗️  STRUCTURE")];
   EvPrint [PStr "   ├─ Schemas Found:  "; Introspection1.PInt (Z.of_nat (length schemas));
            PStr " "; PList (take 3 schemas); PStr "..."];
   EvPrint [PStr "   ├─ Tables:         "; Introspection1.PInt tables];
   EvPrint [PStr "   ├─ Indexes:        "; Introspection1.PInt indexes];
   EvPrint [PStr "   └─ Sequences:      "; Introspection1.PInt sequences];
   EvPrint [PStr (NL +:+ "🧠 LOGIC")];
   EvPrint [PStr "   ├─ Views:          "; Introspection1.PInt views];
   EvPrint [PStr "   ├─ Procedures:     "; Introspection1.PInt procedures];
   EvPrint [PStr "   ├─ Functions:      "; Introspection1.PInt functions];
   EvPrint [PStr "   └─ Triggers:       "; Introspection1.PInt triggers];
   EvPrint [PStr (NL +:+ "⚠️  WARNINGS")];
   EvPrint [PStr "   ├─ Events/Jobs:    "; Introspection1.count_or_None events];
   EvPrint [PStr "   └─ Synonyms:       "; Introspection1.count_or_None synonyms];
   EvPrint [PStr (Introspection1.str_mul "=" 50 +:+ NL)]].

Definition count (m : gmap atom pyval) : Z := Z.of_nat (size m).

(** The agent [IntrospectionAgent("1")] builds when its engine leads to
    the sample MySQL database. *)
Definition world_agent : Introspection1.IntrospectionAgent :=
  {| Introspection1.db_type := "mysql";
     Introspection1.db_name := "MySQL (Sakila)";
     Introspection1.engine := world;
     Introspection1.worker := Introspection1.MySQLWorker world |}.

(** Running computations one after the other until one raises. *)
Fixpoint run_all (cs : list (M pyval)) : M (list pyval) :=
  match cs with
  | [] => mret []
  | c :: cs' => v ← c; vs ← run_all cs'; mret (v :: vs)
  end.

(** ** [introspection.py]: the deep scan *)

(** The five extraction methods in the order [run_deep_scan] calls them. *)
Definition deep_scan_order (w : Introspection.BaseIntrospector) : list (M pyval) :=
  [Introspection.get_tables w; Introspection.get_views w;
   Introspection.get_procedures w; Introspection.get_functions w;
   Introspection.get_triggers w].

(** The report of [run_deep_scan], from the five extraction results. *)
Definition deep_report (driver_name : string) (database : option string)
    (tables views procedures functions triggers : pyval) : pyval :=
  PDict (dict_of
    [("metadata", PDict (dict_of [("source_driver", PStr driver_name);
                                  ("database", opt_str database)]));
     ("tables", tables);
     ("views", views);
     ("stored_procedures", procedures);
     ("functions", functions);
     ("triggers", triggers)]).

(** [IntrospectionAgent.run_deep_scan] for a worker given as its method
    table; [driver_name] is [self.driver_name] and [database] is
    [os.getenv('MYSQL_DB')]. *)
Definition run_deep_scan (driver_name : string) (database : option string)
    (w : Introspection.BaseIntrospector) : M pyval :=
  _ ← print [PStr (NL +:+ "🔍 Starting Deep Introspection Scan...")];
  tables ← Introspection.get_tables w;
  views ← Introspection.get_views w;
  procedures ← Introspection.get_procedures w;
  functions ← Introspection.get_functions w;
  triggers ← Introspection.get_triggers w;
  let scan_results :=
    deep_report driver_name database tables views procedures functions triggers in
  v ← Introspection1.getitem scan_results "tables";
  n ← Introspection1.py_len v;
  _ ← print [PStr "   📄 Tables: "; Introspection1.PInt n];
  v ← Introspection1.getitem scan_results "views";
  n ← Introspection1.py_len v;
  _ ← print [PStr "   👁️ Views: "; Introspection1.PInt n];
  v ← Introspection1.getitem scan_results "stored_procedures";
  n ← Introspection1.py_len v;
  _ ← print [PStr "   ⚙️ Procedures: "; Introspection1.PInt n];
  v ← Introspection1.getitem scan_results "functions";
  n ← Introspection1.py_len v;
  _ ← print [PStr "   ea Functions: "; Introspection1.PInt n];
  v ← Introspection1.getitem scan_results "triggers";
  n ← Introspection1.py_len v;
  _ ← print [PStr "   ⚡ Triggers: "; Introspection1.PInt n];
  mret scan_results.

(** The five count lines [run_deep_scan] prints. *)
Definition deep_summary_lines (tables views procedures functions triggers : Z)
    : list event :=
  [EvPrint [PStr "   📄 Tables: "; Introspection1.PInt tables];
   EvPrint [PStr "   👁️ Views: "; Introspection1.PInt views];
   EvPrint [PStr "   ⚙️ Procedures: "; Introspection1.PInt procedures];
   EvPrint [PStr "   ea Functions: "; Introspection1.PInt functions];
   EvPrint [PStr "   ⚡ Triggers: "; Introspection1.PInt triggers]].

(** [needle in hay], as Python defines it: [needle] occurs in [hay]. *)
Definition occurs_in (needle hay : string) : Prop :=
  exists pre post : string, hay = pre +:+ needle +:+ post.

(** The table descriptor of the five-method MySQL worker: the indexes
    are reflected after the columns, foreign keys and primary key. *)
Definition five_table_value (src : Source) (table : string) : res pyval :=
  match reflect_table src table None with
  | Err e => Err e
  | Ok (columns, fks, pk) =>
      match insp_get_indexes src table None with
      | Err e => Err e
      | Ok indexes =>
          Ok (PDict (dict_of
            [("type", PStr "table");
             ("columns", PList (column_entry <$> columns));
             ("primary_key", str_list (default [] (pk_constrained_columns pk)));
             ("foreign_keys", PList (Introspection.MySQLIntrospector.fk_raw <$> fks));
             ("indexes", PList (Introspection.MySQLIntrospector.index_entry <$> indexes))]))
      end
  end.


(** A MySQL server that refuses the inspection of its engine. *)
Definition unreachable : Source :=
  {| url_database := AStr "sakila";
     eng_inspect := Err (db_error "Can't connect to MySQL server on 'localhost'");
     eng_connect := Err (db_error "Can't connect to MySQL server on 'localhost'");
     conn_execute := fun _ => Ok [];
     insp_get_schema_names := Ok [];
     insp_get_table_names := fun _ => Ok [];
     insp_get_view_names := Ok [];
     insp_get_columns := fun _ _ => Ok [];
     insp_get_foreign_keys := fun _ _ => Ok [];
     insp_get_pk_constraint := fun _ _ => Ok {| pk_constrained_columns := None |};
     insp_get_indexes := fun _ _ => Ok [] |}.

(** * Properties *)

(** ** Reasoning about the effect monad *)

Lemma bind_run {A B} (c : M A) (k : A -> M B) a l :
  c = (Ok a, l) -> c ≫= k = ((k a).1, l ++ (k a).2).
Proof. intros ->. unfold mbind, M_bind. by destruct (k a). Qed.

Lemma bind_err {A B} (c : M A) (k : A -> M B) e l :
  c = (Err e, l) -> c ≫= k = (Err e, l).
Proof. by intros ->. Qed.

Lemma bind_inv_ok {A B} (c : M A) (k : A -> M B) b l :
  c ≫= k = (Ok b, l) ->
  exists a l1 l2, c = (Ok a, l1) /\ k a = (Ok b, l2) /\ l = l1 ++ l2.
Proof.
  destruct c as [[a|e] l1]; unfold mbind, M_bind; [|done].
  destruct (k a) as [r l2] eqn:Hk. intros [= -> <-]. by exists a, l1, l2.
Qed.

Lemma fmap_inv_ok {A B} (f : A -> B) (c : M A) b l :
  f <$> c = (Ok b, l) -> exists a, c = (Ok a, l) /\ b = f a.
Proof.
  destruct c as [[a|e] l1]; unfold fmap, M_fmap; [|done].
  intros [= <- <-]. by exists a.
Qed.

Lemma ret_inv {A} (a b : A) (l : list event) :
  (mret a : M A) = (Ok b, l) -> a = b /\ l = [].
Proof. by intros [= -> <-]. Qed.

(** A loop whose body always succeeds with an update and a log that
    depend on the element only is a left fold. *)
Lemma for_each_pure {X A} (f : A -> X -> A) (g : X -> list event)
    (body : A -> X -> M A) (xs : list X) (acc : A) :
  (forall a x, x ∈ xs -> body a x = (Ok (f a x), g x)) ->
  for_each xs body acc = (Ok (foldl f acc xs), xs ≫= g).
Proof.
  revert acc. induction xs as [|x xs IH]; intros acc Hbody; [done|].
  cbn [for_each]. rewrite (bind_run _ _ (f acc x) (g x)).
  - rewrite IH; [by rewrite bind_cons|]. intros a y Hy. apply Hbody. by right.
  - apply Hbody. by left.
Qed.
Import Introspection1.

Lemma DB_CONFIGS_lookup (env : Env) (key : string) (cfg : Config) :
  DB_CONFIGS env !! key = Some cfg ->
  (key = "1" /\ cfg_type cfg = "mysql") \/ (key = "2" /\ cfg_type cfg = "mssql").
Proof.
  unfold DB_CONFIGS. rewrite !lookup_insert.
  repeat case_decide; subst; rewrite ?lookup_empty; intros [= <-]; auto.
Qed.

Lemma init_with_known (configs : gmap string Config) (env : Env) (key : string)
    (cfg : Config) (src : Source) (cls : Source -> Worker) :
  configs !! key = Some cfg ->
  create_engine env (cfg_url cfg) = Ok src ->
  eng_inspect src = Ok tt ->
  (cfg_type cfg = "mysql" /\ cls = MySQLWorker) \/
  (cfg_type cfg = "mssql" /\ cls = SQLServerWorker) ->
  result (init_with configs env key) =
    Ok {| db_type := cfg_type cfg; db_name := cfg_name cfg;
          engine := src; worker := cls src |}.
Proof.
  intros Hcfg Heng Hinsp Hcls. unfold init_with. rewrite Hcfg.
  unfold new_worker, inspect, ask. rewrite Heng.
  destruct Hcls as [[-> ->]|[-> ->]]; cbn; by rewrite Hinsp.
Qed.

Lemma init_with_ok_worker (configs : gmap string Config) (env : Env) (key : string)
    (a : IntrospectionAgent) :
  result (init_with configs env key) = Ok a ->
  (db_type a = "mysql" /\ worker a = MySQLWorker (engine a)) \/
  (db_type a = "mssql" /\ worker a = SQLServerWorker (engine a)).
Proof.
  unfold result, init_with. destruct (configs !! key) as [cfg|]; [|done].
  unfold new_worker, inspect, ask.
  destruct (create_engine env (cfg_url cfg)) as [src|e]; [|done].
  destruct (String.eqb (cfg_type cfg) "mysql") eqn:Hmy.
  { apply String.eqb_eq in Hmy. cbn. destruct (eng_inspect src) as [[]|]; [|done].
    cbn. intros [= <-]. by left. }
  destruct (String.eqb (cfg_type cfg) "mssql") eqn:Hms; [|by cbn].
  apply String.eqb_eq in Hms. cbn. destruct (eng_inspect src) as [[]|]; [|done].
  cbn. intros [= <-]. by right.
Qed.

Lemma init_with_unknown_type (configs : gmap string Config) (env : Env) (key : string)
    (cfg : Config) :
  configs !! key = Some cfg ->
  cfg_type cfg <> "mysql" -> cfg_type cfg <> "mssql" ->
  init_with configs env key =
    (match create_engine env (cfg_url cfg) with
     | Ok _ => Err (Raise ValueError ("Unknown DB Type: " +:+ cfg_type cfg))
     | Err e => Err e
     end,
     [EvPrint [PStr (NL +:+ "🔌 Connecting to "); PStr (cfg_name cfg); PStr "..."];
      EvCreateEngine (cfg_url cfg)]).
Proof.
  intros Hcfg Hmy Hms. unfold init_with. rewrite Hcfg.
  apply String.eqb_neq in Hmy, Hms. rewrite Hmy, Hms.
  unfold ask. by destruct (create_engine env (cfg_url cfg)).
Qed.

(** C2. Worker resolution of the eleven-method agent.  [DB_CONFIGS] has
    exactly the two selectors 1 (type mysql) and 2 (type mssql), and each
    is supported: once its engine is created and inspected, selector 1
    yields an agent with the MySQL worker and selector 2 an agent with the
    SQL Server worker.  A key of [DB_CONFIGS] resolves to the worker class
    of its engine family and no agent is ever built with another pairing.
    A key outside the table raises ValueError with an empty event log; a
    table entry of an unknown type raises before any event that touches
    the database. *)
Theorem C2_worker_resolution (env : Env) (key : string) :
  (forall cfg src,
     DB_CONFIGS env !! key = Some cfg ->
     create_engine env (cfg_url cfg) = Ok src ->
     eng_inspect src = Ok tt ->
     exists a, result (__init__ env key) = Ok a /\
       db_type a = cfg_type cfg /\ engine a = src /\
       ((key = "1" /\ db_type a = "mysql" /\ worker a = MySQLWorker src) \/
        (key = "2" /\ db_type a = "mssql" /\ worker a = SQLServerWorker src))) /\
  (forall a, result (__init__ env key) = Ok a ->
     (db_type a = "mysql" /\ worker a = MySQLWorker (engine a)) \/
     (db_type a = "mssql" /\ worker a = SQLServerWorker (engine a))) /\
  (DB_CONFIGS env !! key = None ->
     __init__ env key = (Err (Raise ValueError "Invalid Configuration Key"), [])) /\
  (forall configs cfg,
     configs !! key = Some cfg ->
     cfg_type cfg <> "mysql" -> cfg_type cfg <> "mssql" ->
     (exists e, result (init_with configs env key) = Err e /\
        (forall src, create_engine env (cfg_url cfg) = Ok src ->
           e = Raise ValueError ("Unknown DB Type: " +:+ cfg_type cfg))) /\
     Forall (fun ev => is_db_access ev = false) (log (init_with configs env key))) /\
  (is_Some (DB_CONFIGS env !! key) <-> key = "1" \/ key = "2") /\
  (exists mysql mssql,
     DB_CONFIGS env !! "1" = Some mysql /\ cfg_type mysql = "mysql" /\
     DB_CONFIGS env !! "2" = Some mssql /\ cfg_type mssql = "mssql" /\
     (forall src,
        create_engine env (cfg_url mysql) = Ok src -> eng_inspect src = Ok tt ->
        exists a, result (__init__ env "1") = Ok a /\
          db_type a = "mysql" /\ engine a = src /\ worker a = MySQLWorker src) /\
     (forall src,
        create_engine env (cfg_url mssql) = Ok src -> eng_inspect src = Ok tt ->
        exists a, result (__init__ env "2") = Ok a /\
          db_type a = "mssql" /\ engine a = src /\ worker a = SQLServerWorker src)).
Proof.
  split; [|split; [|split; [|split; [|split]]]].
  - intros cfg src Hcfg Heng Hinsp.
    destruct (DB_CONFIGS_lookup _ _ _ Hcfg) as [[-> Hty]|[-> Hty]].
    + eexists. split.
      { apply (init_with_known _ _ _ cfg src MySQLWorker); auto. }
      cbn. rewrite Hty. auto 10.
    + eexists. split.
      { apply (init_with_known _ _ _ cfg src SQLServerWorker); auto. }
      cbn. rewrite Hty. auto 10.
  - apply init_with_ok_worker.
  - intros Hnone. unfold __init__, init_with. by rewrite Hnone.
  - intros configs cfg Hcfg Hmy Hms.
    rewrite (init_with_unknown_type _ _ _ _ Hcfg Hmy Hms). split.
    + destruct (create_engine env (cfg_url cfg)) as [src|e] eqn:Heng; cbn.
      * eexists; split; [done|]. done.
      * eexists; split; [done|]. by intros.
    + cbn. by repeat constructor.
  - split.
    + intros [cfg Hcfg]. destruct (DB_CONFIGS_lookup _ _ _ Hcfg) as [[-> _]|[-> _]]; auto.
    + intros [->| ->]; by eexists.
  - eexists _, _. split; [reflexivity|]. split; [reflexivity|].
    split; [reflexivity|]. split; [reflexivity|]. split.
    + intros src Heng Hinsp. eexists. split.
      { lazymatch type of Heng with
        | create_engine _ (cfg_url ?c) = _ =>
            apply (init_with_known _ _ _ c src MySQLWorker)
        end; [reflexivity|exact Heng|exact Hinsp|by left]. }
      done.
    + intros src Heng Hinsp. eexists. split.
      { lazymatch type of Heng with
        | create_engine _ (cfg_url ?c) = _ =>
            apply (init_with_known _ _ _ c src SQLServerWorker)
        end; [reflexivity|exact Heng|exact Hinsp|by right]. }
      done.
Qed.

(** C2 at the sample environment: key 1 resolves to the MySQL worker, key
    2 to the SQL Server worker, key 3 raises with nothing logged. *)
Lemma C2_worker_resolution_witness :
  (exists a, result (__init__ (env_of quiet_source) "1") = Ok a /\
     worker a = MySQLWorker quiet_source) /\
  (exists a, result (__init__ (env_of quiet_source) "2") = Ok a /\
     worker a = SQLServerWorker quiet_source) /\
  __init__ (env_of quiet_source) "3" =
    (Err (Raise ValueError "Invalid Configuration Key"), []).
Proof.
  destruct (C2_worker_resolution (env_of quiet_source) "1") as (H1 & _).
  destruct (C2_worker_resolution (env_of quiet_source) "2")
    as (_ & _ & _ & _ & _ & (mysql & mssql & _ & _ & _ & _ & _ & H2)).
  destruct (C2_worker_resolution (env_of quiet_source) "3") as (_ & _ & H3 & _).
  split; [|split].
  - destruct (H1 _ quiet_source eq_refl eq_refl eq_refl)
      as (a & Ha & _ & _ & [(_ & _ & Hw)|(Hk & _)]); [eauto|discriminate].
  - destruct (H2 quiet_source eq_refl eq_refl) as (a & Ha & _ & _ & Hw). eauto.
  - apply H3. reflexivity.
Defined.

(** C9. The MySQL worker's [get_user_defined_types], [get_sequences] and
    [get_synonyms] return the empty mapping on every database, with an
    empty event log: the database is not consulted. *)
Theorem C9_mysql_absent_concepts_empty (src : Source) :
  let w := methods (MySQLWorker src) in
  Contract.get_user_defined_types w = (Ok (PDict ∅), []) /\
  Contract.get_sequences w = (Ok (PDict ∅), []) /\
  Contract.get_synonyms w = (Ok (PDict ∅), []).
Proof. by repeat split. Qed.

(** ** The scan *)

Lemma bind_log_Forall {A B} (P : event -> Prop) (c : M A) (k : A -> M B) :
  Forall P (log c) -> (forall a, Forall P (log (k a))) -> Forall P (log (c ≫= k)).
Proof.
  destruct c as [[a|e] l]; unfold mbind, M_bind, log; cbn; [|done].
  intros Hl Hk. specialize (Hk a). destruct (k a) as [r l']. cbn in *.
  by apply Forall_app.
Qed.

Lemma getitem_log (d : pyval) (key : string) : log (getitem d key) = [].
Proof. destruct d as [| | |m]; try done. cbn. by destruct (m !! AStr key). Qed.

Lemma py_len_log (v : pyval) : log (py_len v) = [].
Proof. by destruct v as [[]| | |]. Qed.

Lemma slice3_log (v : pyval) : log (slice3 v) = [].
Proof. by destruct v as [[]| | |]. Qed.

Lemma len_at2_log (P : event -> Prop) (data : pyval) (k1 k2 : string) :
  Forall P (log (len_at2 data k1 k2)).
Proof.
  unfold len_at2. apply bind_log_Forall; [by rewrite getitem_log|intros d].
  apply bind_log_Forall; [by rewrite getitem_log|intros v].
  by rewrite py_len_log.
Qed.

Lemma print_inv (parts : list pyval) (u : unit) (l : list event) :
  print parts = (Ok u, l) -> l = [EvPrint parts].
Proof. by intros [= <-]. Qed.

(** The summary only prints. *)
Lemma _print_pretty_summary_prints (name : string) (data : pyval) :
  Forall (fun ev => is_print ev = true) (log (_print_pretty_summary name data)).
Proof.
  unfold _print_pretty_summary.
  repeat (apply bind_log_Forall; [|intros ?]);
    rewrite ?getitem_log, ?py_len_log, ?slice3_log;
    first [apply len_at2_log | by repeat constructor].
Qed.

(** C6. A scan that returns a report has run the eleven extraction
    methods of its worker, each to a successful end, in the order
    schemas, user-defined types, sequences, tables, indexes, views,
    procedures, functions, triggers, events, synonyms: its event log is
    the start line, the eleven methods' logs in that order, and the
    summary's lines.  The report is the complete document: every section
    and sub-mapping is present and holds the corresponding method's
    result. *)
Theorem C6_run_scan_order_and_sections (name type : string) (w : BaseIntrospector)
    (r : pyval) (l : list event) :
  run_scan_with name type w = (Ok r, l) ->
  exists schemas udts sequences tables indexes views procedures functions
         triggers events synonyms
         l1 l2 l3 l4 l5 l6 l7 l8 l9 l10 l11 lsum,
    Contract.get_schemas w = (Ok schemas, l1) /\
    Contract.get_user_defined_types w = (Ok udts, l2) /\
    Contract.get_sequences w = (Ok sequences, l3) /\
    Contract.get_tables w = (Ok tables, l4) /\
    Contract.get_indexes w = (Ok indexes, l5) /\
    Contract.get_views w = (Ok views, l6) /\
    Contract.get_procedures w = (Ok procedures, l7) /\
    Contract.get_functions w = (Ok functions, l8) /\
    Contract.get_triggers w = (Ok triggers, l9) /\
    Contract.get_events w = (Ok events, l10) /\
    Contract.get_synonyms w = (Ok synonyms, l11) /\
    l = EvPrint [PStr "🔍 Starting Deep Scan on "; PStr name; PStr "..."] ::
        l1 ++ l2 ++ l3 ++ l4 ++ l5 ++ l6 ++ l7 ++ l8 ++ l9 ++ l10 ++ l11 ++ lsum /\
    Forall (fun ev => is_print ev = true) lsum /\
    r = report name type schemas udts sequences tables indexes views
               procedures functions triggers events synonyms /\
    field "metadata" r =
      Some (PDict (dict_of [("database", PStr name); ("type", PStr type)])) /\
    field "schemas" r = Some schemas /\
    (exists d, field "dependencies" r = Some d /\
       field "user_defined_types" d = Some udts /\
       field "sequences" d = Some sequences) /\
    field "tables" r = Some tables /\
    field "indexes" r = Some indexes /\
    (exists d, field "logic" r = Some d /\
       field "views" d = Some views /\ field "procedures" d = Some procedures /\
       field "functions" d = Some functions /\ field "triggers" d = Some triggers) /\
    (exists d, field "warnings" r = Some d /\
       field "events" d = Some events /\ field "synonyms" d = Some synonyms).
Proof.
  intros H. unfold run_scan_with in H.
  apply bind_inv_ok in H as (u & l0 & r0 & H0 & H & ->). apply print_inv in H0 as ->.
  apply bind_inv_ok in H as (schemas & l1 & r1 & H1 & H & ->).
  apply bind_inv_ok in H as (udts & l2 & r2 & H2 & H & ->).
  apply bind_inv_ok in H as (sequences & l3 & r3 & H3 & H & ->).
  apply bind_inv_ok in H as (tables & l4 & r4 & H4 & H & ->).
  apply bind_inv_ok in H as (indexes & l5 & r5 & H5 & H & ->).
  apply bind_inv_ok in H as (views & l6 & r6 & H6 & H & ->).
  apply bind_inv_ok in H as (procedures & l7 & r7 & H7 & H & ->).
  apply bind_inv_ok in H as (functions & l8 & r8 & H8 & H & ->).
  apply bind_inv_ok in H as (triggers & l9 & r9 & H9 & H & ->).
  apply bind_inv_ok in H as (events & l10 & r10 & H10 & H & ->).
  apply bind_inv_ok in H as (synonyms & l11 & r11 & H11 & H & ->).
  apply bind_inv_ok in H as (u' & lsum & r12 & Hsum & H & ->).
  apply ret_inv in H as [<- ->].
  exists schemas, udts, sequences, tables, indexes, views, procedures, functions,
    triggers, events, synonyms, l1, l2, l3, l4, l5, l6, l7, l8, l9, l10, l11, lsum.
  repeat (split; [done|]).
  split; [by rewrite app_nil_r|].
  split.
  { pose proof (_print_pretty_summary_prints name
      (report name type schemas udts sequences tables indexes views procedures
              functions triggers events synonyms)) as Hp.
    by rewrite Hsum in Hp. }
  split; [done|].
  repeat split; try done; eexists; (split; [reflexivity|]); by repeat split.
Qed.

(** C6 at the instrumented worker: the eleven methods are called once
    each, in the fixed order, and the report holds their results. *)
Lemma C6_run_scan_order_witness :
  calls_of (log (run_scan_with "Sakila" "mysql" probe_worker)) =
    ["get_schemas"; "get_user_defined_types"; "get_sequences"; "get_tables";
     "get_indexes"; "get_views"; "get_procedures"; "get_functions";
     "get_triggers"; "get_events"; "get_synonyms"] /\
  exists r, result (run_scan_with "Sakila" "mysql" probe_worker) = Ok r /\
    field "tables" r = Some (PDict ∅).
Proof.
  split; [vm_compute; reflexivity|].
  assert (exists r l, run_scan_with "Sakila" "mysql" probe_worker = (Ok r, l))
    as (r & l & H).
  { eexists _, _. vm_compute. reflexivity. }
  destruct (C6_run_scan_order_and_sections _ _ _ _ _ H)
    as (schemas & udts & sequences & tables & indexes & views & procedures &
        functions & triggers & events & synonyms &
        l1 & l2 & l3 & l4 & l5 & l6 & l7 & l8 & l9 & l10 & l11 & lsum &
        H1 & H2 & H3 & H4 & H5 & H6 & H7 & H8 & H9 & H10 & H11 & Hl & Hsum &
        Hr & _ & _ & _ & Htables & _).
  exists r. split; [unfold result; by rewrite H|].
  rewrite Htables. injection H4 as <- _. reflexivity.
Defined.

(** ** SQL Server functions *)

Lemma fmap_run {A B} (f : A -> B) (c : M A) a l :
  c = (Ok a, l) -> f <$> c = (Ok (f a), l).
Proof. by intros ->. Qed.

(** C5 does not hold as stated: the three mappings can share a key.  On
    a database with a scalar function [a.b].[c] and an inline function
    [a].[b.c] the reads for FN and IF both have the key [a.b.c];
    [get_functions] returns one entry for the two functions, the inline
    one, and the scalar function's definition is not in the result. *)
Lemma C5_get_functions_key_collision :
  exists mFN mIF mTF m,
    result (SQLServerIntrospector._get_module dotted "FN") = Ok mFN /\
    result (SQLServerIntrospector._get_module dotted "IF") = Ok mIF /\
    result (SQLServerIntrospector._get_module dotted "TF") = Ok mTF /\
    result (SQLServerIntrospector.get_functions dotted) = Ok (PDict m) /\
    mFN !! AStr "a.b.c" =
      Some (PStr "CREATE FUNCTION [a.b].[c]() RETURNS int AS BEGIN RETURN 1 END") /\
    mIF !! AStr "a.b.c" =
      Some (PStr "CREATE FUNCTION [a].[b.c]() RETURNS TABLE AS RETURN SELECT 1 AS x") /\
    m !! AStr "a.b.c" =
      Some (PStr "CREATE FUNCTION [a].[b.c]() RETURNS TABLE AS RETURN SELECT 1 AS x") /\
    (size mFN + size mIF + size mTF = 2)%nat /\
    size m = 1%nat.
Proof.
  exists {[AStr "a.b.c" :=
             PStr "CREATE FUNCTION [a.b].[c]() RETURNS int AS BEGIN RETURN 1 END"]},
         {[AStr "a.b.c" :=
             PStr "CREATE FUNCTION [a].[b.c]() RETURNS TABLE AS RETURN SELECT 1 AS x"]},
         ∅,
         {[AStr "a.b.c" :=
             PStr "CREATE FUNCTION [a].[b.c]() RETURNS TABLE AS RETURN SELECT 1 AS x"]}.
  repeat split; vm_compute; reflexivity.
Qed.

(** C5, amended.  When the three catalog reads for the type codes FN, IF
    and TF succeed, the SQL Server worker's [get_functions] returns one
    mapping that merges them in that order: its keys are exactly the keys
    of the three, each entry comes from one of the three, and where a key
    occurs under several type codes the entry of the later code is kept
    (TF before IF before FN).  When the three key sets are pairwise
    disjoint every entry of each is kept, so the sizes add up. *)
Theorem C5_get_functions_union (src : Source) (mFN mIF mTF : gmap atom pyval)
    (lFN lIF lTF : list event) :
  SQLServerIntrospector._get_module src "FN" = (Ok mFN, lFN) ->
  SQLServerIntrospector._get_module src "IF" = (Ok mIF, lIF) ->
  SQLServerIntrospector._get_module src "TF" = (Ok mTF, lTF) ->
  exists m,
    SQLServerIntrospector.get_functions src = (Ok (PDict m), lFN ++ lIF ++ lTF) /\
    m = mTF ∪ (mIF ∪ mFN) /\
    dom m = dom mFN ∪ dom mIF ∪ dom mTF /\
    (forall k v, m !! k = Some v ->
       mFN !! k = Some v \/ mIF !! k = Some v \/ mTF !! k = Some v) /\
    (forall k,
       m !! k = match mTF !! k with
                | Some v => Some v
                | None => match mIF !! k with
                          | Some v => Some v
                          | None => mFN !! k
                          end
                end) /\
    (mFN ##ₘ mIF -> mFN ##ₘ mTF -> mIF ##ₘ mTF ->
       mFN ⊆ m /\ mIF ⊆ m /\ mTF ⊆ m /\
       size m = size mFN + size mIF + size mTF).
Proof.
  intros HFN HIF HTF. exists (mTF ∪ (mIF ∪ mFN)). split; [|split; [done|]].
  { unfold SQLServerIntrospector.get_functions.
    rewrite (bind_run _ _ _ _ HFN).
    rewrite (bind_run _ _ _ _ (fmap_run _ _ _ _ HIF)). cbn [fst snd].
    rewrite (bind_run _ _ _ _ (fmap_run _ _ _ _ HTF)). cbn.
    by rewrite app_nil_r. }
  split; [rewrite !dom_union_L; set_solver|].
  split.
  { intros k v. rewrite !lookup_union_Some_raw. naive_solver. }
  split.
  { intros k. rewrite !lookup_union.
    by destruct (mTF !! k), (mIF !! k), (mFN !! k). }
  intros H12 H13 H23.
  assert (mTF ##ₘ mIF ∪ mFN) as Hd.
  { apply map_disjoint_union_r. split; by symmetry. }
  repeat split.
  - etrans; [|apply map_union_subseteq_r; done].
    apply map_union_subseteq_r. by symmetry.
  - etrans; [|apply map_union_subseteq_r; done].
    apply map_union_subseteq_l.
  - apply map_union_subseteq_l.
  - rewrite map_size_disj_union by done.
    rewrite map_size_disj_union by (by symmetry). lia.
Qed.

(** ** Loops that collect a mapping *)

Section CollectFacts.
Context {X : Type} (key : X -> atom) (val : X -> option pyval).

Lemma collect_lookup_Some (xs : list X) (m0 : gmap atom pyval) k v :
  collect key val xs m0 !! k = Some v ->
  m0 !! k = Some v \/ exists x, x ∈ xs /\ key x = k /\ val x = Some v.
Proof.
  revert m0. induction xs as [|x xs IH]; intros m0; cbn; [auto|].
  intros H. apply IH in H as [H|(y & Hy & Hk & Hv)].
  - unfold collect_step in H. destruct (val x) as [w|] eqn:Hx; [|auto].
    destruct (decide (key x = k)) as [<-|Hne].
    + rewrite lookup_insert_eq in H. injection H as ->.
      right. exists x. split; [by left|done].
    + rewrite lookup_insert_ne in H by done. auto.
  - right. exists y. split; [by right|done].
Qed.

Lemma collect_mono (xs : list X) (m0 : gmap atom pyval) k :
  is_Some (m0 !! k) -> is_Some (collect key val xs m0 !! k).
Proof.
  revert m0. induction xs as [|x xs IH]; intros m0 H; cbn; [done|].
  apply IH. unfold collect_step. destruct (val x); [|done].
  rewrite lookup_insert. case_decide; [done|]. done.
Qed.

Lemma collect_lookup_is_Some (xs : list X) (m0 : gmap atom pyval) x v :
  x ∈ xs -> val x = Some v -> is_Some (collect key val xs m0 !! key x).
Proof.
  revert m0. induction xs as [|y xs IH]; intros m0 Hin Hv.
  - by apply elem_of_nil in Hin.
  - apply elem_of_cons in Hin as [<-|Hin]; cbn.
    + apply collect_mono. unfold collect_step. rewrite Hv.
      by rewrite lookup_insert_eq.
    + by apply IH.
Qed.

Lemma collect_lookup_None (xs : list X) k :
  (forall x, x ∈ xs -> key x = k -> val x = None) ->
  collect key val xs ∅ !! k = None.
Proof.
  intros H. destruct (collect key val xs ∅ !! k) as [v|] eqn:Hk; [|done].
  apply collect_lookup_Some in Hk as [Hk|(x & Hx & Hkx & Hv)].
  - by rewrite lookup_empty in Hk.
  - rewrite (H x Hx Hkx) in Hv. discriminate.
Qed.

End CollectFacts.



(** ** SQL Server structure scans *)

Section SQLServerScans.
Import SQLServerIntrospector.









(** C5 at the sample database: one function of each kind, three keys. *)
Lemma C5_get_functions_union_witness :
  exists m, result (get_functions adventure) = Ok (PDict m) /\
    dom m = {[AStr "dbo.ufnLeadingZeros"]} ∪ {[AStr "dbo.ufnGetContact"]} ∪
            {[AStr "dbo.ufnGetOrders"]}.
Proof.
  destruct (C5_get_functions_union adventure
              {[AStr "dbo.ufnLeadingZeros" := PStr "CREATE FUNCTION dbo.ufnLeadingZeros"]}
              {[AStr "dbo.ufnGetContact" := PStr "CREATE FUNCTION dbo.ufnGetContact"]}
              {[AStr "dbo.ufnGetOrders" := PStr "CREATE FUNCTION dbo.ufnGetOrders"]}
              _ _ _ eq_refl eq_refl eq_refl) as (m & Hm & _ & Hdom & _).
  exists m. split.
  - unfold result. by rewrite Hm.
  - rewrite Hdom. by rewrite !dom_singleton_L.
Defined.

End SQLServerScans.

(** ** The shape of the methods' results *)

Lemma PDict_is_mapping (m : gmap atom pyval) : is_mapping (PDict m).
Proof. exists m. split; [done|]. apply NoDup_fst_map_to_list. Qed.

Lemma returns_mapping_ret (m : gmap atom pyval) : returns_mapping (mret (PDict m)).
Proof. intros v [= <-]. apply PDict_is_mapping. Qed.

Lemma returns_mapping_bind {A} (c : M A) (k : A -> M pyval) :
  (forall a, returns_mapping (k a)) -> returns_mapping (c ≫= k).
Proof.
  intros Hk v Hv. unfold result in Hv.
  destruct (c ≫= k) as [r l] eqn:Hc. cbn in Hv. subst r.
  apply bind_inv_ok in Hc as (a & l1 & l2 & _ & Hka & _).
  apply (Hk a). unfold result. by rewrite Hka.
Qed.

Lemma returns_mapping_fmap (c : M (gmap atom pyval)) : returns_mapping (PDict <$> c).
Proof.
  intros v Hv. unfold result in Hv.
  destruct (PDict <$> c) as [r l] eqn:Hc. cbn in Hv. subst r.
  apply fmap_inv_ok in Hc as (m & _ & ->). apply PDict_is_mapping.
Qed.

Ltac returns_mapping :=
  repeat lazymatch goal with
  | |- returns_mapping (mbind _ _) => apply returns_mapping_bind; intros ?
  | |- returns_mapping (mret _) => apply returns_mapping_ret
  | |- returns_mapping (fmap _ _) => apply returns_mapping_fmap
  end.

(** Reducing [m (methods w)] to the worker's own method. *)
Ltac method_of w :=
  unfold w;
  cbn [Contract.get_schemas Contract.get_tables Contract.get_indexes
       Contract.get_user_defined_types Contract.get_sequences Contract.get_views
       Contract.get_procedures Contract.get_functions Contract.get_triggers
       Contract.get_events Contract.get_synonyms].

Lemma mysql_returns_mappings (src : Source) :
  Forall returns_mapping (mapping_methods (MySQLIntrospector.methods src)).
Proof.
  unfold mapping_methods. method_of MySQLIntrospector.methods.
  repeat lazymatch goal with |- Forall _ _ => constructor end;
    unfold MySQLIntrospector.get_user_defined_types, MySQLIntrospector.get_sequences,
      MySQLIntrospector.get_tables, MySQLIntrospector.get_indexes,
      MySQLIntrospector.get_views, MySQLIntrospector.get_procedures,
      MySQLIntrospector.get_functions, MySQLIntrospector.get_triggers,
      MySQLIntrospector.get_events, MySQLIntrospector.get_synonyms;
    returns_mapping.
Qed.

Lemma mssql_returns_mappings (src : Source) :
  Forall returns_mapping (mapping_methods (SQLServerIntrospector.methods src)).
Proof.
  unfold mapping_methods. method_of SQLServerIntrospector.methods.
  repeat lazymatch goal with |- Forall _ _ => constructor end;
    unfold SQLServerIntrospector.get_user_defined_types,
      SQLServerIntrospector.get_sequences, SQLServerIntrospector.get_tables,
      SQLServerIntrospector.get_indexes, SQLServerIntrospector.get_views,
      SQLServerIntrospector.get_procedures, SQLServerIntrospector.get_functions,
      SQLServerIntrospector.get_triggers, SQLServerIntrospector.get_events,
      SQLServerIntrospector.get_synonyms;
    returns_mapping.
Qed.



(** ** MySQL triggers *)

Lemma row_get_inv (r : row) (i : nat) (a : atom) (l : list event) :
  row_get r i = (Ok a, l) -> r !! i = Some a /\ l = [].
Proof. unfold row_get. destruct (r !! i); [|done]. by intros [= -> <-]. Qed.

(** An invariant of the accumulator that every successful step keeps
    holds of the result of a successful loop. *)
Lemma for_each_inv {X A} (P : A -> Prop) (xs : list X) (body : A -> X -> M A) :
  (forall acc x acc' l, x ∈ xs -> P acc -> body acc x = (Ok acc', l) -> P acc') ->
  forall acc0 acc l, P acc0 -> for_each xs body acc0 = (Ok acc, l) -> P acc.
Proof.
  induction xs as [|x xs IH]; intros Hstep acc0 acc l H0 Hrun.
  - by apply ret_inv in Hrun as [<- _].
  - cbn [for_each] in Hrun.
    apply bind_inv_ok in Hrun as (acc1 & l1 & l2 & Hx & Hrun & _).
    eapply IH; [|by eapply (Hstep acc0 x); [left|..]|done].
    intros ? y ? ? Hy. apply Hstep. by right.
Qed.

(** The statement run by a [with engine.connect()] block that starts with
    one [execute]. *)
Lemma connect_execute_inv {A} (src : Source) (sql : string)
    (k : list row -> M A) (a : A) (l : list event) :
  (_ ← connect src; rows ← execute src sql; k rows) = (Ok a, l) ->
  exists rows l', conn_execute src sql = Ok rows /\ k rows = (Ok a, l').
Proof.
  intros H. apply bind_inv_ok in H as (u & l1 & l2 & _ & H & _).
  apply bind_inv_ok in H as (rows & l3 & l4 & Hq & H & _).
  exists rows, l4. split; [|done]. unfold execute, ask in Hq. by injection Hq.
Qed.

Lemma result_inv {A} (c : M A) (a : A) : result c = Ok a -> exists l, c = (Ok a, l).
Proof. destruct c as [r l]. cbn. intros ->. by exists l. Qed.

Lemma trigger_entry_eleven_inv (r : row) (d : pyval) (l : list event) :
  Introspection1.MySQLIntrospector.trigger_entry r = (Ok d, l) ->
  exists event table timing statement,
    r !! 1 = Some event /\ r !! 2 = Some table /\ r !! 4 = Some timing /\
    r !! 3 = Some statement /\
    d = PDict (dict_of [("event", PAtom event); ("table", PAtom table);
                        ("timing", PAtom timing); ("statement", PAtom statement)]).
Proof.
  unfold Introspection1.MySQLIntrospector.trigger_entry. intros H.
  apply bind_inv_ok in H as (event & ? & ? & H1 & H & _).
  apply bind_inv_ok in H as (table & ? & ? & H2 & H & _).
  apply bind_inv_ok in H as (timing & ? & ? & H4 & H & _).
  apply bind_inv_ok in H as (statement & ? & ? & H3 & H & _).
  apply ret_inv in H as [<- _].
  apply row_get_inv in H1 as [H1 _], H2 as [H2 _], H3 as [H3 _], H4 as [H4 _].
  by exists event, table, timing, statement.
Qed.

Lemma trigger_entry_five_inv (name : atom) (r : row) (d : pyval) (l : list event) :
  Introspection.MySQLIntrospector.trigger_entry name r = (Ok d, l) ->
  exists event table timing statement,
    r !! 1 = Some event /\ r !! 2 = Some table /\ r !! 4 = Some timing /\
    r !! 3 = Some statement /\
    d = PDict (dict_of
          [("event", PAtom event); ("table", PAtom table);
           ("timing", PAtom timing); ("statement", PAtom statement);
           ("definition_full",
            PStr (Introspection.MySQLIntrospector.definition_full
                    name timing event table statement))]).
Proof.
  unfold Introspection.MySQLIntrospector.trigger_entry. intros H.
  apply bind_inv_ok in H as (event & ? & ? & H1 & H & _).
  apply bind_inv_ok in H as (table & ? & ? & H2 & H & _).
  apply bind_inv_ok in H as (timing & ? & ? & H4 & H & _).
  apply bind_inv_ok in H as (statement & ? & ? & H3 & H & _).
  apply ret_inv in H as [<- _].
  apply row_get_inv in H1 as [H1 _], H2 as [H2 _], H3 as [H3 _], H4 as [H4 _].
  by exists event, table, timing, statement.
Qed.

Lemma descriptors_from_insert (rows : list row)
    (mk : atom -> atom -> atom -> atom -> atom -> pyval) (m : gmap atom pyval)
    (r : row) (name event table timing statement : atom) :
  descriptors_from rows mk m -> r ∈ rows ->
  trigger_row r name event table timing statement ->
  descriptors_from rows mk (<[name := mk name event table timing statement]> m).
Proof.
  intros Hm Hr Hrow name' d. rewrite lookup_insert.
  case_decide as Hk; [|by apply Hm].
  subst name'. intros [= <-]. by exists r, event, table, timing, statement.
Qed.

Lemma get_triggers_descriptor_eleven (src : Source) (m : gmap atom pyval) :
  result (Introspection1.MySQLIntrospector.get_triggers src) = Ok (PDict m) ->
  exists rows, conn_execute src "SHOW TRIGGERS" = Ok rows /\
    descriptors_from rows
      (fun _ event table timing statement =>
         PDict (dict_of [("event", PAtom event); ("table", PAtom table);
                         ("timing", PAtom timing); ("statement", PAtom statement)]))
      m.
Proof.
  intros H. apply result_inv in H as [l H].
  unfold Introspection1.MySQLIntrospector.get_triggers in H.
  apply connect_execute_inv in H as (rows & l' & Hrows & H).
  apply bind_inv_ok in H as (m' & l1 & l2 & Hloop & H & _).
  apply ret_inv in H as [[= ->] _].
  exists rows. split; [done|].
  refine (for_each_inv (descriptors_from rows _) _ _ _ ∅ m l1 _ Hloop).
  - intros acc r acc' lb Hr IH Hbody.
    apply bind_inv_ok in Hbody as (d & l3 & l4 & Hentry & Hbody & _).
    apply bind_inv_ok in Hbody as (name & l5 & l6 & Hname & Hbody & _).
    apply ret_inv in Hbody as [<- _]. apply row_get_inv in Hname as [Hname _].
    apply trigger_entry_eleven_inv in Hentry
      as (event & table & timing & statement & H1 & H2 & H4 & H3 & ->).
    refine (descriptors_from_insert rows _ acc r name event table timing statement
              IH Hr _).
    by unfold trigger_row.
  - intros name d. by rewrite lookup_empty.
Qed.

Lemma get_triggers_descriptor_five (src : Source) (m : gmap atom pyval) :
  result (Introspection.MySQLIntrospector.get_triggers src) = Ok (PDict m) ->
  exists rows, conn_execute src "SHOW TRIGGERS" = Ok rows /\
    descriptors_from rows
      (fun name event table timing statement =>
         PDict (dict_of
           [("event", PAtom event); ("table", PAtom table);
            ("timing", PAtom timing); ("statement", PAtom statement);
            ("definition_full",
             PStr (Introspection.MySQLIntrospector.definition_full
                     name timing event table statement))]))
      m.
Proof.
  intros H. apply result_inv in H as [l H].
  unfold Introspection.MySQLIntrospector.get_triggers in H.
  apply connect_execute_inv in H as (rows & l' & Hrows & H).
  apply bind_inv_ok in H as (m' & l1 & l2 & Hloop & H & _).
  apply ret_inv in H as [[= ->] _].
  exists rows. split; [done|].
  refine (for_each_inv (descriptors_from rows _) _ _ _ ∅ m l1 _ Hloop).
  - intros acc r acc' lb Hr IH Hbody.
    apply bind_inv_ok in Hbody as (name & l5 & l6 & Hname & Hbody & _).
    apply bind_inv_ok in Hbody as (d & l3 & l4 & Hentry & Hbody & _).
    apply ret_inv in Hbody as [<- _]. apply row_get_inv in Hname as [Hname _].
    apply trigger_entry_five_inv in Hentry
      as (event & table & timing & statement & H1 & H2 & H4 & H3 & ->).
    refine (descriptors_from_insert rows _ acc r name event table timing statement
              IH Hr _).
    by unfold trigger_row.
  - intros name d. by rewrite lookup_empty.
Qed.

(** C7, evaluated where it fails.  The eleven-method MySQL worker's
    [get_triggers] stores for every trigger the event, table, timing and
    statement of its listing row and never the statement rebuilt from
    them: no descriptor it returns has [definition_full].  The five-method
    worker's [get_triggers] stores the same four fields and the rebuilt
    statement.  On the sample database the eleven-method worker's
    descriptor of [ins_film] has four fields, the five-method worker's
    has the rebuilt statement as well. *)
Theorem C7_get_triggers_lacks_definition_full :
  (forall src m name d,
     result (Introspection1.MySQLIntrospector.get_triggers src) = Ok (PDict m) ->
     m !! name = Some d ->
     exists rows r event table timing statement,
       conn_execute src "SHOW TRIGGERS" = Ok rows /\ r ∈ rows /\
       trigger_row r name event table timing statement /\
       field "event" d = Some (PAtom event) /\
       field "table" d = Some (PAtom table) /\
       field "timing" d = Some (PAtom timing) /\
       field "statement" d = Some (PAtom statement) /\
       field "definition_full" d = None) /\
  (forall src m name d,
     result (Introspection.MySQLIntrospector.get_triggers src) = Ok (PDict m) ->
     m !! name = Some d ->
     exists rows r event table timing statement,
       conn_execute src "SHOW TRIGGERS" = Ok rows /\ r ∈ rows /\
       trigger_row r name event table timing statement /\
       field "event" d = Some (PAtom event) /\
       field "table" d = Some (PAtom table) /\
       field "timing" d = Some (PAtom timing) /\
       field "statement" d = Some (PAtom statement) /\
       field "definition_full" d =
         Some (PStr ("CREATE TRIGGER " +:+ py_str name +:+ " " +:+ py_str timing +:+
                     " " +:+ py_str event +:+ " ON " +:+ py_str table +:+
                     " FOR EACH ROW " +:+ py_str statement))) /\
  (exists d,
     result (Introspection1.MySQLIntrospector.get_triggers sakila)
       = Ok (PDict {[AStr "ins_film" := d]}) /\
     field "event" d = Some (PStr "INSERT") /\
     field "table" d = Some (PStr "film") /\
     field "timing" d = Some (PStr "AFTER") /\
     field "statement" d
       = Some (PStr "BEGIN INSERT INTO film_text VALUES (new.film_id); END") /\
     field "definition_full" d = None /\
     size (match d with PDict fields => fields | _ => ∅ end) = 4%nat) /\
  (exists d,
     result (Introspection.MySQLIntrospector.get_triggers sakila)
       = Ok (PDict {[AStr "ins_film" := d]}) /\
     field "definition_full" d =
       Some (PStr ("CREATE TRIGGER ins_film AFTER INSERT ON film FOR EACH ROW " +:+
                   "BEGIN INSERT INTO film_text VALUES (new.film_id); END"))).
Proof.
  split; [|split; [|split]].
  - intros src m name d Hm Hd.
    destruct (get_triggers_descriptor_eleven src m Hm) as (rows & Hrows & Hfrom).
    destruct (Hfrom name d Hd)
      as (r & event & table & timing & statement & Hr & Hrow & ->).
    exists rows, r, event, table, timing, statement.
    split; [exact Hrows|]. split; [exact Hr|]. split; [exact Hrow|].
    repeat split; reflexivity.
  - intros src m name d Hm Hd.
    destruct (get_triggers_descriptor_five src m Hm) as (rows & Hrows & Hfrom).
    destruct (Hfrom name d Hd)
      as (r & event & table & timing & statement & Hr & Hrow & ->).
    exists rows, r, event, table, timing, statement.
    split; [exact Hrows|]. split; [exact Hr|]. split; [exact Hrow|].
    repeat split; reflexivity.
  - eexists. split; [vm_compute; reflexivity|]. by vm_compute.
  - eexists. split; [vm_compute; reflexivity|]. by vm_compute.
Qed.

(** ** Per-object failures in the MySQL routines *)

(** C1, evaluated where it fails.  On a database whose first listed
    procedure cannot be shown, [get_procedures] of the eleven-method MySQL
    worker raises the statement's exception after the listing and the
    failed fetch, and the second procedure is never fetched.  On the same
    database the five-method worker's [get_procedures] stores a placeholder
    for the failing procedure and extracts the other, and the eleven-method
    worker's own [get_views] stores a placeholder for the failing view. *)
Theorem C1_get_procedures_raises :
  Introspection1.MySQLIntrospector.get_procedures sakila =
    (Err (db_error "execute command denied to user"),
     [EvConnect;
      EvExecute "SHOW PROCEDURE STATUS WHERE Db = DATABASE() AND Type = 'PROCEDURE'";
      EvExecute "SHOW CREATE PROCEDURE film_in_stock"]) /\
  result (Introspection.MySQLIntrospector.get_procedures sakila) =
    Ok (PDict (<[AStr "rewards_report" :=
                   PStr "CREATE PROCEDURE rewards_report() BEGIN END"]>
               {[AStr "film_in_stock" :=
                   PStr "Error extracting procedure: execute command denied to user"]})) /\
  result (Introspection1.MySQLIntrospector.get_views sakila) =
    Ok (PDict {[AStr "actor_info" := PStr "Error: view references invalid table"]}).
Proof. repeat split; vm_compute; reflexivity. Qed.

(** ** Foreign keys *)

(** C8, evaluated where it fails.  The foreign-key record built by the
    SQL Server worker holds the referred table and the referred schema and
    has no constrained columns, for every reflected foreign key; the MySQL
    worker's record holds the referred table and the constrained columns.
    On the sample database the record stored for Sales.Customer shows
    it. *)
Theorem C8_sqlserver_fk_without_constrained_columns :
  (forall fk,
     field "referred_table" (SQLServerIntrospector.fk_entry fk)
       = Some (PStr (fk_referred_table fk)) /\
     field "referred_schema" (SQLServerIntrospector.fk_entry fk)
       = Some (opt_str (fk_referred_schema fk)) /\
     field "constrained_columns" (SQLServerIntrospector.fk_entry fk) = None) /\
  (forall fk,
     field "referred_table" (MySQLIntrospector.fk_entry fk)
       = Some (PStr (fk_referred_table fk)) /\
     field "constrained_columns" (MySQLIntrospector.fk_entry fk)
       = Some (str_list (fk_constrained_columns fk))) /\
  (exists m d fk,
     result (SQLServerIntrospector.get_tables adventure) = Ok (PDict m) /\
     m !! AStr "Sales.Customer" = Some d /\
     field "foreign_keys" d = Some (PList [fk]) /\
     field "referred_table" fk = Some (PStr "Address") /\
     field "referred_schema" fk = Some (PStr "Person") /\
     field "constrained_columns" fk = None).
Proof.
  split; [|split].
  - by intros fk.
  - by intros fk.
  - eexists _, _, _. repeat split; vm_compute; reflexivity.
Qed.


(** * Further properties of the workers *)

(** ** Loops *)

Lemma for_each_ok_all {X A} (xs : list X) (body : A -> X -> M A) (acc0 acc : A)
    (l : list event) :
  for_each xs body acc0 = (Ok acc, l) ->
  forall x, x ∈ xs -> exists a a' l', body a x = (Ok a', l').
Proof.
  revert acc0 l. induction xs as [|y xs IH]; intros acc0 l Hrun x Hx.
  - by apply elem_of_nil in Hx.
  - cbn [for_each] in Hrun.
    apply bind_inv_ok in Hrun as (acc1 & l1 & l2 & Hy & Hrun & _).
    apply elem_of_cons in Hx as [->|Hx]; [by eauto|].
    by apply (IH acc1 l2).
Qed.

Lemma execute_inv (src : Source) (sql : string) (rows : list row) (l : list event) :
  execute src sql = (Ok rows, l) -> conn_execute src sql = Ok rows.
Proof. unfold execute, ask. by intros [= -> _]. Qed.

Lemma connect_inv (src : Source) (u : unit) (l : list event) :
  connect src = (Ok u, l) -> eng_connect src = Ok tt.
Proof. unfold connect, ask. destruct u. by intros [= -> _]. Qed.

(** A value stored under a key that determines it is found under that
    key, whatever the order and the repetitions of the elements. *)
Lemma collect_lookup_functional {X} (key : X -> atom) (val : X -> option pyval)
    (xs : list X) (x : X) :
  x ∈ xs ->
  (forall y, y ∈ xs -> key y = key x -> val y = val x) ->
  collect key val xs ∅ !! key x = val x.
Proof.
  intros Hx Hfun. destruct (val x) as [v|] eqn:Hv.
  - destruct (collect_lookup_is_Some key val xs ∅ x v Hx Hv) as [v' Hv'].
    rewrite Hv'. apply collect_lookup_Some in Hv' as [Hv'|(y & Hy & Hk & Hvy)].
    + by rewrite lookup_empty in Hv'.
    + rewrite (Hfun y Hy Hk) in Hvy. congruence.
  - apply collect_lookup_None. intros y Hy Hk. by rewrite (Hfun y Hy Hk).
Qed.

Lemma collect_dom_from {X} (key : X -> atom) (val : X -> option pyval)
    (xs : list X) (k : atom) :
  is_Some (collect key val xs ∅ !! k) -> exists x, x ∈ xs /\ key x = k /\ is_Some (val x).
Proof.
  intros [v Hv]. apply collect_lookup_Some in Hv as [Hv|(x & Hx & Hk & Hvx)].
  - by rewrite lookup_empty in Hv.
  - exists x. by rewrite Hvx.
Qed.

(** The shape shared by the one-listing methods: connect, run the
    listing, loop over its rows. *)
Lemma listing_loop_run (src : Source) (sql : string)
    (body : gmap atom pyval -> row -> M (gmap atom pyval))
    (key : row -> atom) (val : row -> option pyval) (g : row -> list event)
    (rows : list row) :
  eng_connect src = Ok tt ->
  conn_execute src sql = Ok rows ->
  (forall acc r, r ∈ rows -> body acc r = (Ok (collect_step key val acc r), g r)) ->
  (_ ← connect src;
   rows ← execute src sql;
   acc ← for_each (fetchall rows) body ∅;
   mret (PDict acc)) =
  (Ok (PDict (collect key val rows ∅)), EvConnect :: EvExecute sql :: (rows ≫= g)).
Proof.
  intros Hconn Hrows Hbody.
  rewrite (bind_run _ _ tt [EvConnect]) by (unfold connect, ask; by rewrite Hconn).
  rewrite (bind_run _ _ rows [EvExecute sql]) by (unfold execute, ask; by rewrite Hrows).
  rewrite (bind_run _ _ (collect key val rows ∅) (rows ≫= g)).
  - unfold mret, M_ret. cbn. by rewrite app_nil_r.
  - by apply for_each_pure.
Qed.

Lemma listing_loop_inv (src : Source) (sql : string)
    (body : gmap atom pyval -> row -> M (gmap atom pyval)) (v : pyval) :
  result (_ ← connect src;
          rows ← execute src sql;
          acc ← for_each (fetchall rows) body ∅;
          mret (PDict acc)) = Ok v ->
  exists rows, eng_connect src = Ok tt /\ conn_execute src sql = Ok rows /\
    forall r, r ∈ rows -> exists a a' l, body a r = (Ok a', l).
Proof.
  intros H. apply result_inv in H as [l H].
  apply bind_inv_ok in H as (u & l1 & l2 & Hconn & H & _).
  apply bind_inv_ok in H as (rows & l3 & l4 & Hrows & H & _).
  apply bind_inv_ok in H as (acc & l5 & l6 & Hloop & _ & _).
  exists rows. split; [by eapply connect_inv|]. split; [by eapply execute_inv|].
  intros r Hr. by eapply for_each_ok_all.
Qed.

(** ** MySQL routines, eleven-method worker *)

Lemma routine_body_run (src : Source) (show_create : string)
    (acc : gmap atom pyval) (r : row) :
  Introspection1.MySQLIntrospector.routine_body src show_create acc r =
    match r !! 1 with
    | None => (Err (Raise IndexError "tuple index out of range"), [])
    | Some name =>
        (match routine_value src show_create name with
         | Ok d => Ok (<[name := d]> acc)
         | Err e => Err e
         end, [EvExecute (show_create +:+ py_str name)])
    end.
Proof.
  unfold Introspection1.MySQLIntrospector.routine_body, routine_value, row_get,
    execute, ask.
  destruct (r !! 1) as [name|]; [|done]. cbn.
  destruct (conn_execute src (show_create +:+ py_str name)) as [rows|e]; [|done].
  destruct rows as [|[|c cs] rows]; cbn; try done.
  by destruct (cs !! 1).
Qed.

Lemma routines_all_or_nothing (src : Source) (list_sql show_create : string) :
  all_or_nothing src list_sql show_create
    (_ ← connect src;
     rows ← execute src list_sql;
     acc ← for_each (fetchall rows)
             (Introspection1.MySQLIntrospector.routine_body src show_create) ∅;
     mret (PDict acc)).
Proof.
  set (key := name_column 1).
  set (val := fun r : row => ok_value (routine_value src show_create (key r))).
  set (g := fun r : row => [EvExecute (show_create +:+ py_str (key r))]).
  assert (forall listed,
    eng_connect src = Ok tt -> conn_execute src list_sql = Ok listed ->
    (forall r, r ∈ listed ->
       exists name d, r !! 1 = Some name /\ routine_value src show_create name = Ok d) ->
    (_ ← connect src;
     rows ← execute src list_sql;
     acc ← for_each (fetchall rows)
             (Introspection1.MySQLIntrospector.routine_body src show_create) ∅;
     mret (PDict acc)) =
    (Ok (PDict (collect key val listed ∅)),
     EvConnect :: EvExecute list_sql :: (listed ≫= g))) as Hrun.
  { intros listed Hconn Hlisted Hall. apply listing_loop_run; [done..|].
    intros acc r Hr. destruct (Hall r Hr) as (name & d & Hname & Hd).
    rewrite routine_body_run, Hname.
    unfold collect_step, val, g, key, name_column. rewrite Hname. cbn.
    by rewrite Hd. }
  split.
  - intros v Hv. pose proof Hv as Hv'.
    apply listing_loop_inv in Hv' as (listed & Hconn & Hlisted & Hsteps).
    assert (forall r, r ∈ listed ->
      exists name d, r !! 1 = Some name /\ routine_value src show_create name = Ok d)
      as Hall.
    { intros r Hr. destruct (Hsteps r Hr) as (a & a' & l & Hbody).
      rewrite routine_body_run in Hbody.
      destruct (r !! 1) as [name|]; [|done].
      destruct (routine_value src show_create name) as [d|] eqn:Hd; [|done].
      by exists name, d. }
    rewrite (Hrun listed Hconn Hlisted Hall) in Hv. injection Hv as <-.
    exists listed, (collect key val listed ∅). repeat split; try done.
    + intros r Hr. destruct (Hall r Hr) as (name & d & Hname & Hd).
      exists name, d. split; [done|]. split; [done|].
      assert (key r = name) as Hk by (unfold key, name_column; by rewrite Hname).
      rewrite <- Hk. rewrite (collect_lookup_functional key val listed r Hr).
      * unfold val. by rewrite Hk, Hd.
      * intros y _ Hy. unfold val. by rewrite Hy.
    + intros k Hk. apply collect_dom_from in Hk as (r & Hr & Hkr & _).
      exists r. split; [done|]. destruct (Hall r Hr) as (name & d & Hname & _).
      unfold key, name_column in Hkr. rewrite Hname in Hkr. cbn in Hkr. congruence.
  - intros listed Hconn Hlisted Hall. eexists. unfold result.
    by rewrite (Hrun listed Hconn Hlisted Hall).
Qed.

(** X1. [get_procedures] and [get_functions] of the eleven-method MySQL
    worker are all-or-nothing: they return only when the connection, the
    listing statement and the SHOW CREATE statement of every listed
    routine succeed, and then the mapping holds, under the name of every
    listed routine, the third column of its SHOW CREATE row, or the
    literal [Error] when the statement returned no row, and has no other
    key; one failing routine makes the whole call raise. *)
Theorem mysql_routines_all_or_nothing (src : Source) :
  all_or_nothing src
    "SHOW PROCEDURE STATUS WHERE Db = DATABASE() AND Type = 'PROCEDURE'"
    "SHOW CREATE PROCEDURE " (Introspection1.MySQLIntrospector.get_procedures src) /\
  all_or_nothing src
    "SHOW FUNCTION STATUS WHERE Db = DATABASE() AND Type = 'FUNCTION'"
    "SHOW CREATE FUNCTION " (Introspection1.MySQLIntrospector.get_functions src).
Proof. split; apply routines_all_or_nothing. Qed.

(** X1 at the sample database: the procedure holds its source, the
    function whose statement returns no row holds [Error]. *)
Lemma mysql_routines_all_or_nothing_witness :
  result (Introspection1.MySQLIntrospector.get_procedures world) =
    Ok (PDict {[AStr "refresh" := PStr "CREATE PROCEDURE refresh() BEGIN END"]}) /\
  result (Introspection1.MySQLIntrospector.get_functions world) =
    Ok (PDict {[AStr "area" := PStr "Error"]}).
Proof.
  destruct (mysql_routines_all_or_nothing world) as [[Hp _] [Hf _]].
  split.
  - destruct (result (Introspection1.MySQLIntrospector.get_procedures world))
      as [v|e] eqn:Hv; [|vm_compute in Hv; discriminate Hv].
    destruct (Hp v eq_refl) as (listed & m & _ & Hlisted & -> & Hall & Hdom).
    vm_compute in Hlisted. injection Hlisted as <-.
    f_equal. f_equal. apply map_eq. intros k.
    destruct (Hall _ (list_elem_of_here _ _)) as (name & d & [= <-] & [= <-] & Hm).
    destruct (decide (k = AStr "refresh")) as [->|Hne].
    + by rewrite Hm, lookup_singleton_eq.
    + rewrite lookup_singleton_ne by done.
      destruct (m !! k) as [x|] eqn:Hk; [|done].
      destruct (Hdom k (mk_is_Some _ _ Hk)) as (r & Hr & Hrk).
      apply list_elem_of_singleton in Hr as ->. by injection Hrk as <-.
  - destruct (result (Introspection1.MySQLIntrospector.get_functions world))
      as [v|e] eqn:Hv; [|vm_compute in Hv; discriminate Hv].
    destruct (Hf v eq_refl) as (listed & m & _ & Hlisted & -> & Hall & Hdom).
    vm_compute in Hlisted. injection Hlisted as <-.
    f_equal. f_equal. apply map_eq. intros k.
    destruct (Hall _ (list_elem_of_here _ _)) as (name & d & [= <-] & [= <-] & Hm).
    destruct (decide (k = AStr "area")) as [->|Hne].
    + by rewrite Hm, lookup_singleton_eq.
    + rewrite lookup_singleton_ne by done.
      destruct (m !! k) as [x|] eqn:Hk; [|done].
      destruct (Hdom k (mk_is_Some _ _ Hk)) as (r & Hr & Hrk).
      apply list_elem_of_singleton in Hr as ->. by injection Hrk as <-.
Defined.

(** ** Guarded fetches *)

Lemma try_fetch_run (src : Source) (sql : string) (col : nat) (prefix : string)
    (k : atom) (acc : gmap atom pyval) :
  (forall e, conn_execute src sql = Err e -> is_Exception e = true) ->
  try_except
    (rows ← execute src sql;
     if row_truthy (fetchone rows) then
       a ← row_get (default [] (fetchone rows)) col;
       mret (<[k := PAtom a]> acc)
     else mret acc)
    (fun e => mret (<[k := PStr (prefix +:+ exn_msg e)]> acc)) =
  (Ok (match fetch_value src sql col prefix with
       | Some v => <[k := v]> acc
       | None => acc
       end), [EvExecute sql]).
Proof.
  intros Hexn. unfold fetch_value, execute, ask, row_get.
  destruct (conn_execute src sql) as [rows|e] eqn:Hq; cbn.
  - destruct rows as [|[|c cs] rows]; cbn; try done.
    destruct col as [|col]; cbn; [done|]. destruct (cs !! col); by cbn.
  - by rewrite (Hexn e eq_refl).
Qed.

Lemma mysql_get_views_body_run (src : Source) (views : gmap atom pyval) (view : string) :
  (forall e, eng_connect src = Err e -> is_Exception e = true) ->
  (forall e, conn_execute src ("SHOW CREATE VIEW " +:+ view) = Err e ->
     is_Exception e = true) ->
  Introspection1.MySQLIntrospector.get_views_body src views view =
    (Ok (collect_step AStr (view_value src) views view),
     EvConnect ::
     match eng_connect src with
     | Ok _ => [EvExecute ("SHOW CREATE VIEW " +:+ view)]
     | Err _ => []
     end).
Proof.
  intros Hconn Hexn.
  unfold Introspection1.MySQLIntrospector.get_views_body, collect_step, view_value,
    fetch_value, connect, execute, ask, row_get.
  destruct (eng_connect src) as [[]|e] eqn:Hc; cbn.
  - destruct (conn_execute src ("SHOW CREATE VIEW " +:+ view)) as [rows|e] eqn:Hq; cbn.
    + destruct rows as [|[|c cs] rows]; cbn; try done.
      destruct cs; by cbn.
    + by rewrite (Hexn e eq_refl).
  - by rewrite (Hconn e eq_refl).
Qed.

(** X2. [get_views] of the eleven-method MySQL worker absorbs every
    per-view failure that is an [Exception]: once the view names are
    listed it returns a mapping in which each listed view holds the second
    column of its SHOW CREATE VIEW row, or the placeholder [Error: ]
    followed by the exception's message when connecting or the statement
    raises (or the row is too short), and is absent when the statement
    returns no row; there is no other key. *)
Theorem mysql_get_views_absorbs_failures (src : Source) (names : list string) :
  insp_get_view_names src = Ok names ->
  (forall e, eng_connect src = Err e -> is_Exception e = true) ->
  (forall view e, view ∈ names ->
     conn_execute src ("SHOW CREATE VIEW " +:+ view) = Err e -> is_Exception e = true) ->
  exists m,
    result (Introspection1.MySQLIntrospector.get_views src) = Ok (PDict m) /\
    (forall view, view ∈ names -> m !! AStr view = view_value src view) /\
    (forall k, is_Some (m !! k) -> exists view, view ∈ names /\ k = AStr view).
Proof.
  intros Hnames Hconn Hexn.
  exists (collect AStr (view_value src) names ∅). split; [|split].
  - unfold Introspection1.MySQLIntrospector.get_views.
    rewrite (bind_run _ _ names [EvReflect RViewNames])
      by (unfold get_view_names, ask; by rewrite Hnames).
    rewrite (bind_run _ _ (collect AStr (view_value src) names ∅)
      (names ≫= fun view =>
         EvConnect ::
         match eng_connect src with
         | Ok _ => [EvExecute ("SHOW CREATE VIEW " +:+ view)]
         | Err _ => []
         end)); [done|].
    apply for_each_pure. intros acc view Hview.
    apply mysql_get_views_body_run; [done|]. intros e. by apply Hexn.
  - intros view Hview. apply collect_lookup_functional; [done|].
    by intros y _ [= ->].
  - intros k Hk. apply collect_dom_from in Hk as (view & Hview & <- & _). by exists view.
Qed.

(** X2 at the sample database: of three views one holds its source, the
    broken one a placeholder, and the one with no row is absent. *)
Lemma mysql_get_views_absorbs_failures_witness :
  exists m,
    result (Introspection1.MySQLIntrospector.get_views world) = Ok (PDict m) /\
    m !! AStr "big_cities" = Some (PStr "CREATE VIEW big_cities AS SELECT 1") /\
    m !! AStr "lost" = Some (PStr "Error: references invalid table") /\
    m !! AStr "hidden" = None.
Proof.
  destruct (mysql_get_views_absorbs_failures world ["big_cities"; "lost"; "hidden"]
              eq_refl) as (m & Hm & Hval & _).
  - intros e He. discriminate He.
  - intros view e Hview He. apply list_elem_of_In in Hview.
    destruct Hview as [<-|[<-|[<-|[]]]]; vm_compute in He; try discriminate He.
    by injection He as <-.
  - exists m. split; [exact Hm|].
    rewrite !Hval by (apply list_elem_of_In; cbn; auto).
    by vm_compute.
Defined.

(** ** The five-method MySQL worker *)

Lemma routine_body_five_run (src : Source) (show_create placeholder : string)
    (acc : gmap atom pyval) (r : row) (name : atom) :
  r !! 1 = Some name ->
  (forall e, conn_execute src (show_create +:+ py_str name) = Err e ->
     is_Exception e = true) ->
  Introspection.MySQLIntrospector.routine_body src show_create placeholder acc r =
    (Ok (match fetch_value src (show_create +:+ py_str name) 2 placeholder with
         | Some v => <[name := v]> acc
         | None => acc
         end), [EvExecute (show_create +:+ py_str name)]).
Proof.
  intros Hname Hexn. unfold Introspection.MySQLIntrospector.routine_body.
  rewrite (bind_run _ _ name []) by (unfold row_get; by rewrite Hname).
  cbv beta zeta. by rewrite (try_fetch_run src _ 2 placeholder name acc Hexn).
Qed.

Lemma routines_absorb_failures (src : Source) (list_sql show_create placeholder : string) :
  absorbs_failures src list_sql show_create placeholder
    (_ ← connect src;
     procs ← execute src list_sql;
     acc ← for_each (fetchall procs)
             (Introspection.MySQLIntrospector.routine_body src show_create placeholder) ∅;
     mret (PDict acc)).
Proof.
  intros listed Hconn Hlisted Hnames Hexn.
  set (key := name_column 1).
  set (val := fun r : row =>
         fetch_value src (show_create +:+ py_str (key r)) 2 placeholder).
  exists (collect key val listed ∅). split; [|split].
  - unfold result.
    rewrite (listing_loop_run src list_sql _ key val
               (fun r => [EvExecute (show_create +:+ py_str (key r))]) listed);
      [done..|].
    intros acc r Hr. destruct (Hnames r Hr) as [name Hname].
    assert (key r = name) as Hk by (unfold key, name_column; by rewrite Hname).
    rewrite (routine_body_five_run src _ _ acc r name Hname)
      by (intros e; by apply (Hexn r)).
    unfold collect_step, val. by rewrite Hk.
  - intros r name Hr Hname.
    assert (key r = name) as Hk by (unfold key, name_column; by rewrite Hname).
    rewrite <- Hk at 1. rewrite (collect_lookup_functional key val listed r Hr).
    + unfold val. by rewrite Hk.
    + intros y _ Hy. unfold val. by rewrite Hy.
  - intros k Hk. apply collect_dom_from in Hk as (r & Hr & Hkr & _).
    exists r. split; [done|]. destruct (Hnames r Hr) as [name Hname].
    unfold key, name_column in Hkr. rewrite Hname in Hkr. cbn in Hkr. congruence.
Qed.

(** X3. [get_procedures] and [get_functions] of the five-method MySQL
    worker absorb every per-routine failure that is an [Exception]: when
    the connection and the listing succeed and every listed row has a name
    column, the call returns a mapping in which each listed routine holds
    the third column of its SHOW CREATE row, or a placeholder made of
    [Error extracting procedure: ] (or [function: ]) and the exception's
    message when the statement raises or the row is too short, and is
    absent when the statement returns no row; there is no other key. *)
Theorem mysql_five_routines_absorb_failures (src : Source) :
  absorbs_failures src
    "SHOW PROCEDURE STATUS WHERE Db = DATABASE() AND Type = 'PROCEDURE'"
    "SHOW CREATE PROCEDURE " "Error extracting procedure: "
    (Introspection.MySQLIntrospector.get_procedures src) /\
  absorbs_failures src
    "SHOW FUNCTION STATUS WHERE Db = DATABASE() AND Type = 'FUNCTION'"
    "SHOW CREATE FUNCTION " "Error extracting function: "
    (Introspection.MySQLIntrospector.get_functions src).
Proof. split; apply routines_absorb_failures. Qed.

(** X3 at the sample database of C1: the procedure that cannot be shown
    holds a placeholder, the other its source. *)
Lemma mysql_five_routines_absorb_failures_witness :
  exists m,
    result (Introspection.MySQLIntrospector.get_procedures sakila) = Ok (PDict m) /\
    m !! AStr "film_in_stock" =
      Some (PStr "Error extracting procedure: execute command denied to user") /\
    m !! AStr "rewards_report" =
      Some (PStr "CREATE PROCEDURE rewards_report() BEGIN END").
Proof.
  destruct (mysql_five_routines_absorb_failures sakila) as [Hp _].
  destruct (Hp [[AStr "sakila"; AStr "film_in_stock"; AStr "PROCEDURE"];
                [AStr "sakila"; AStr "rewards_report"; AStr "PROCEDURE"]]
              eq_refl eq_refl) as (m & Hm & Hval & _).
  - intros r Hr. apply list_elem_of_In in Hr.
    destruct Hr as [<-|[<-|[]]]; by eexists.
  - intros r name e Hr Hname He. apply list_elem_of_In in Hr.
    destruct Hr as [<-|[<-|[]]]; injection Hname as <-; vm_compute in He;
      try discriminate He.
    by injection He as <-.
  - exists m. split; [exact Hm|]. split.
    + rewrite (Hval [AStr "sakila"; AStr "film_in_stock"; AStr "PROCEDURE"]);
        [by vm_compute| |done]. apply list_elem_of_In. cbn. auto.
    + rewrite (Hval [AStr "sakila"; AStr "rewards_report"; AStr "PROCEDURE"]);
        [by vm_compute| |done]. apply list_elem_of_In. cbn. auto.
Defined.

(** X4. [get_views] of the five-method MySQL worker opens its connection
    once, outside the guard: a failing connection makes the call raise
    after the view names were listed, and no statement runs.  With a
    connection, every per-view failure that is an [Exception] is absorbed:
    each listed view holds the second column of its SHOW CREATE VIEW row,
    or the placeholder [Error extracting view: ] followed by the
    exception's message, and is absent when the statement returns no
    row. *)
Theorem mysql_five_get_views_guard (src : Source) (names : list string) :
  insp_get_view_names src = Ok names ->
  (forall e, eng_connect src = Err e ->
     Introspection.MySQLIntrospector.get_views src =
       (Err e, [EvReflect RViewNames; EvConnect])) /\
  (eng_connect src = Ok tt ->
   (forall view e, view ∈ names ->
      conn_execute src ("SHOW CREATE VIEW " +:+ view) = Err e -> is_Exception e = true) ->
   exists m,
     result (Introspection.MySQLIntrospector.get_views src) = Ok (PDict m) /\
     (forall view, view ∈ names ->
        m !! AStr view =
          fetch_value src ("SHOW CREATE VIEW " +:+ view) 1 "Error extracting view: ") /\
     (forall k, is_Some (m !! k) -> exists view, view ∈ names /\ k = AStr view)).
Proof.
  intros Hnames. unfold Introspection.MySQLIntrospector.get_views.
  rewrite (bind_run _ _ names [EvReflect RViewNames])
    by (unfold get_view_names, ask; by rewrite Hnames).
  split.
  - intros e He. unfold connect, ask. by rewrite He.
  - intros Hconn Hexn.
    set (val := fun view : string =>
           fetch_value src ("SHOW CREATE VIEW " +:+ view) 1 "Error extracting view: ").
    exists (collect AStr val names ∅). split; [|split].
    + rewrite (bind_run _ _ tt [EvConnect]) by (unfold connect, ask; by rewrite Hconn).
      rewrite (bind_run _ _ (collect AStr val names ∅)
                 (names ≫= fun view => [EvExecute ("SHOW CREATE VIEW " +:+ view)]));
        [done|].
      apply for_each_pure. intros acc view Hview.
      unfold Introspection.MySQLIntrospector.get_views_body. cbv beta zeta.
      rewrite (try_fetch_run src _ 1 "Error extracting view: " (AStr view) acc);
        [done|]. intros e. by apply Hexn.
    + intros view Hview. apply (collect_lookup_functional AStr val); [done|].
      by intros y _ [= ->].
    + intros k Hk. apply collect_dom_from in Hk as (view & Hview & <- & _).
      by exists view.
Qed.

(** X4 at the sample database: with its one view broken, the call
    returns the placeholder for it. *)
Lemma mysql_five_get_views_guard_witness :
  exists m,
    result (Introspection.MySQLIntrospector.get_views sakila) = Ok (PDict m) /\
    m !! AStr "actor_info" =
      Some (PStr "Error extracting view: view references invalid table").
Proof.
  destruct (mysql_five_get_views_guard sakila ["actor_info"] eq_refl) as [_ H].
  destruct (H eq_refl) as (m & Hm & Hval & _).
  - intros view e Hview He. apply list_elem_of_singleton in Hview as ->.
    vm_compute in He. by injection He as <-.
  - exists m. split; [exact Hm|].
    rewrite Hval by (by apply list_elem_of_singleton). by vm_compute.
Defined.

(** ** Unguarded listing loops *)

Lemma unguarded_loop {X U} (listing : res (list X)) (ev : event)
    (step : X -> M U) (conv : U -> pyval) (key : X -> atom) (value : X -> res pyval) :
  (forall x, value x = match result (step x) with Ok u => Ok (conv u) | Err e => Err e end) ->
  (forall x y, key x = key y -> value x = value y) ->
  unguarded listing key value
    (xs ← ask ev listing;
     acc ← for_each xs (fun acc x =>
       u ← step x;
       mret (<[key x := conv u]> acc)) ∅;
     mret (PDict acc)).
Proof.
  intros Hvalue Hfun.
  set (body := fun (acc : gmap atom pyval) x =>
         u ← step x; mret (<[key x := conv u]> acc)).
  set (val := fun x => ok_value (value x)).
  assert (forall acc x, body acc x =
            (match result (step x) with
             | Ok u => Ok (<[key x := conv u]> acc)
             | Err e => Err e
             end, log (step x))) as Hbody.
  { intros acc x. unfold body, result, log. destruct (step x) as [[u|e] l]; [|done].
    unfold mbind, M_bind, mret, M_ret. by rewrite app_nil_r. }
  assert (forall xs, listing = Ok xs ->
            (forall x, x ∈ xs -> exists d, value x = Ok d) ->
            (xs ← ask ev listing; acc ← for_each xs body ∅; mret (PDict acc)) =
            (Ok (PDict (collect key val xs ∅)), ev :: (xs ≫= fun x => log (step x))))
    as Hrun.
  { intros xs Hxs Hall.
    rewrite (bind_run _ _ xs [ev]) by (unfold ask; by rewrite Hxs).
    rewrite (bind_run _ _ (collect key val xs ∅) (xs ≫= fun x => log (step x))).
    - unfold mret, M_ret. cbn. by rewrite app_nil_r.
    - apply for_each_pure. intros acc x Hx. rewrite Hbody.
      destruct (Hall x Hx) as [d Hd]. unfold collect_step, val.
      rewrite Hvalue in Hd |- *. by destruct (result (step x)). }
  split.
  - intros v Hv. pose proof Hv as Hv'. apply result_inv in Hv' as [l Hv'].
    apply bind_inv_ok in Hv' as (xs & l1 & l2 & Hxs & Hv' & _).
    apply bind_inv_ok in Hv' as (acc & l3 & l4 & Hloop & _ & _).
    assert (listing = Ok xs) as Hlisting by (unfold ask in Hxs; congruence).
    assert (forall x, x ∈ xs -> exists d, value x = Ok d) as Hall.
    { intros x Hx. destruct (for_each_ok_all _ _ _ _ _ Hloop x Hx) as (a & a' & lb & Hb).
      fold body in Hb. rewrite Hbody in Hb. rewrite Hvalue.
      destruct (result (step x)) as [u|]; [by eexists|done]. }
    fold body in Hv. rewrite (Hrun xs Hlisting Hall) in Hv. injection Hv as <-.
    exists xs, (collect key val xs ∅). repeat split; try done.
    + intros x Hx. destruct (Hall x Hx) as [d Hd]. exists d. split; [done|].
      rewrite (collect_lookup_functional key val xs x Hx).
      * unfold val. by rewrite Hd.
      * intros y _ Hy. unfold val. by rewrite (Hfun y x Hy).
    + intros k Hk. apply collect_dom_from in Hk as (x & Hx & Hkx & _). by exists x.
  - intros xs Hxs Hall. eexists. unfold result. fold body.
    by rewrite (Hrun xs Hxs Hall).
Qed.

Lemma mysql_table_entry_result (src : Source) (table : string) :
  result (Introspection1.MySQLIntrospector.table_entry src table) =
    mysql_table_value src table.
Proof.
  unfold Introspection1.MySQLIntrospector.table_entry, mysql_table_value, reflect_table,
    get_columns, get_foreign_keys, get_pk_constraint, ask, result.
  destruct (insp_get_columns src table None); [|done].
  destruct (insp_get_foreign_keys src table None); [|done].
  by destruct (insp_get_pk_constraint src table None).
Qed.

(** X5. [get_tables] and [get_indexes] of the eleven-method MySQL worker
    are unguarded: they return only if the table listing and the
    reflection of every listed table succeed (one table that cannot be
    reflected makes the whole call raise), and then the mapping has
    exactly the listed table names as keys; a table's descriptor holds its
    type, columns, foreign keys and primary key, the primary key being the
    empty list when reflection reports no constrained columns. *)
Theorem mysql_structure_unguarded (src : Source) :
  unguarded (insp_get_table_names src None) AStr (mysql_table_value src)
    (Introspection1.MySQLIntrospector.get_tables src) /\
  unguarded (insp_get_table_names src None) AStr (mysql_indexes_value src)
    (Introspection1.MySQLIntrospector.get_indexes src).
Proof.
  split.
  - apply (unguarded_loop _ _ (Introspection1.MySQLIntrospector.table_entry src)
             (fun d => d) AStr).
    + intros table. rewrite mysql_table_entry_result.
      by destruct (mysql_table_value src table).
    + by intros x y [= ->].
  - apply (unguarded_loop _ _ (fun table => reflect_indexes src table None)
             (fun idxs => PList (index_entry <$> idxs)) AStr).
    + intros table. unfold mysql_indexes_value, reflect_indexes, ask, result. cbn.
      by destruct (insp_get_indexes src table None).
    + by intros x y [= ->].
Qed.

(** X5 at the sample database: two tables, [film] with its primary key,
    [actor] with the empty default. *)
Lemma mysql_structure_unguarded_witness :
  exists m film actor,
    result (Introspection1.MySQLIntrospector.get_tables world) = Ok (PDict m) /\
    m !! AStr "film" = Some film /\ m !! AStr "actor" = Some actor /\
    field "primary_key" film = Some (PList [PStr "film_id"]) /\
    field "primary_key" actor = Some (PList []).
Proof.
  destruct (mysql_structure_unguarded world) as [[Hinv Hrun] _].
  destruct (Hrun ["film"; "actor"] eq_refl) as [m Hm].
  { intros t Ht. apply list_elem_of_In in Ht.
    destruct Ht as [<-|[<-|[]]]; eexists; vm_compute; reflexivity. }
  destruct (Hinv _ Hm) as (xs & m' & [= <-] & [= <-] & Hall & _).
  destruct (Hall "film") as (film & Hfilm & Hmf); [apply list_elem_of_In; cbn; auto|].
  destruct (Hall "actor") as (actor & Hactor & Hma); [apply list_elem_of_In; cbn; auto|].
  exists m, film, actor. split; [exact Hm|]. split; [exact Hmf|]. split; [exact Hma|].
  assert (match mysql_table_value world "film" with
          | Ok d => field "primary_key" d
          | Err _ => None
          end = Some (PList [PStr "film_id"])) as Hpf by (vm_compute; reflexivity).
  assert (match mysql_table_value world "actor" with
          | Ok d => field "primary_key" d
          | Err _ => None
          end = Some (PList [])) as Hpa by (vm_compute; reflexivity).
  rewrite Hfilm in Hpf. rewrite Hactor in Hpa. by split.
Defined.

(** ** Catalog readers *)

Lemma bind_assoc {A B C} (c : M A) (k : A -> M B) (h : B -> M C) :
  (c ≫= k) ≫= h = c ≫= (fun a => k a ≫= h).
Proof.
  destruct c as [[a|e] l]; unfold mbind, M_bind; [|done].
  destruct (k a) as [[b|e] l1]; [|done].
  destruct (h b) as [r l2]. by rewrite app_assoc.
Qed.





(** A body made of [row_get]s ends as its entry says. *)
Ltac entry_body :=
  intros acc r; unfold row_get, mbind, M_bind, mret, M_ret, option_bind; cbn;
  repeat match goal with
  | |- context [r !! ?i] => destruct (r !! i); cbn; [|reflexivity]
  end; reflexivity.








(** ** SQL Server scans: the listings are not guarded *)

Lemma schema_table_loop_inv (src : Source)
    (body : string -> gmap atom pyval -> string -> M (gmap atom pyval)) (v : pyval) :
  result (names ← Introspection1.SQLServerIntrospector.get_schemas_list src;
          m ← for_each names (fun acc schema_name =>
            tables ← get_table_names src (Some schema_name);
            for_each tables (body schema_name) acc) ∅;
          mret (PDict m)) = Ok v ->
  exists schemas, insp_get_schema_names src = Ok schemas /\
    forall s, s ∈ schemas -> exists ts, insp_get_table_names src (Some s) = Ok ts.
Proof.
  intros H. apply result_inv in H as [l H].
  apply bind_inv_ok in H as (schemas & l1 & l2 & Hschemas & H & _).
  apply bind_inv_ok in H as (m & l3 & l4 & Hloop & _ & _).
  exists schemas. split.
  { unfold Introspection1.SQLServerIntrospector.get_schemas_list, get_schema_names, ask
      in Hschemas. congruence. }
  intros s Hs. destruct (for_each_ok_all _ _ _ _ _ Hloop s Hs) as (a & a' & lb & Hb).
  apply bind_inv_ok in Hb as (ts & l5 & l6 & Hts & _ & _).
  exists ts. unfold get_table_names, ask in Hts. congruence.
Qed.

Lemma schema_listing_fails {A} (src : Source) (e : exn)
    (k : list string -> M A) :
  insp_get_schema_names src = Err e ->
  (names ← Introspection1.SQLServerIntrospector.get_schemas_list src; k names) =
    (Err e, [EvReflect RSchemaNames]).
Proof.
  intros He.
  unfold Introspection1.SQLServerIntrospector.get_schemas_list, get_schema_names, ask.
  by rewrite He.
Qed.

(** X8. In the SQL Server worker's [get_tables] and [get_indexes] only
    the per-table step is guarded: both return only if the schema listing
    and the table listing of every schema succeed, and a failing schema
    listing makes each raise that exception at once, before any table is
    touched; [get_schemas] raises it too. *)
Theorem sqlserver_listing_failures_are_fatal (src : Source) :
  (forall v,
     result (Introspection1.SQLServerIntrospector.get_tables src) = Ok v \/
     result (Introspection1.SQLServerIntrospector.get_indexes src) = Ok v ->
     exists schemas, insp_get_schema_names src = Ok schemas /\
       forall s, s ∈ schemas -> exists ts, insp_get_table_names src (Some s) = Ok ts) /\
  (forall e, insp_get_schema_names src = Err e ->
     Introspection1.SQLServerIntrospector.get_tables src
       = (Err e, [EvReflect RSchemaNames]) /\
     Introspection1.SQLServerIntrospector.get_indexes src
       = (Err e, [EvReflect RSchemaNames]) /\
     Introspection1.SQLServerIntrospector.get_schemas src
       = (Err e, [EvReflect RSchemaNames])) /\
  (forall schemas s e, insp_get_schema_names src = Ok schemas -> s ∈ schemas ->
     insp_get_table_names src (Some s) = Err e ->
     (exists e', result (Introspection1.SQLServerIntrospector.get_tables src) = Err e') /\
     (exists e', result (Introspection1.SQLServerIntrospector.get_indexes src) = Err e')).
Proof.
  split; [|split].
  - intros v [H|H]; by apply schema_table_loop_inv in H.
  - intros e He. repeat split; by apply schema_listing_fails.
  - intros schemas s e Hschemas Hs He. split.
    + destruct (result (Introspection1.SQLServerIntrospector.get_tables src))
        as [v|e'] eqn:Hv; [|by eexists].
      apply schema_table_loop_inv in Hv as (schemas' & Hs' & Hall).
      rewrite Hschemas in Hs'. injection Hs' as <-.
      destruct (Hall s Hs) as [ts Hts]. congruence.
    + destruct (result (Introspection1.SQLServerIntrospector.get_indexes src))
        as [v|e'] eqn:Hv; [|by eexists].
      apply schema_table_loop_inv in Hv as (schemas' & Hs' & Hall).
      rewrite Hschemas in Hs'. injection Hs' as <-.
      destruct (Hall s Hs) as [ts Hts]. congruence.
Qed.

(** X8 at a database where one schema's tables cannot be listed: both
    scans raise, although the tables of the first schema were read. *)
Lemma sqlserver_listing_failures_are_fatal_witness :
  (exists e, result (Introspection1.SQLServerIntrospector.get_tables locked) = Err e) /\
  (exists e, result (Introspection1.SQLServerIntrospector.get_indexes locked) = Err e).
Proof.
  destruct (sqlserver_listing_failures_are_fatal locked) as (_ & _ & H).
  apply (H ["dbo"; "hr"] "hr" (db_error "permission denied")); [reflexivity| |reflexivity].
  apply list_elem_of_In. cbn. auto.
Defined.

(** ** The scan on the two workers *)

Lemma summary_run (name type : string) (schemas : list pyval)
    (udts sequences tables indexes views procedures functions triggers events synonyms
       : gmap atom pyval) :
  _print_pretty_summary name
    (report name type (PList schemas) (PDict udts) (PDict sequences) (PDict tables)
       (PDict indexes) (PDict views) (PDict procedures) (PDict functions)
       (PDict triggers) (PDict events) (PDict synonyms)) =
  (Ok tt,
   summary_lines name schemas (count tables) (count indexes) (count sequences)
     (count views) (count procedures) (count functions) (count triggers)
     (count events) (count synonyms)).
Proof. reflexivity. Qed.

Lemma run_scan_with_run (name type : string) (w : BaseIntrospector)
    (schemas : list pyval)
    (udts sequences tables indexes views procedures functions triggers events synonyms
       : gmap atom pyval)
    (l1 l2 l3 l4 l5 l6 l7 l8 l9 l10 l11 : list event) :
  Contract.get_schemas w = (Ok (PList schemas), l1) ->
  Contract.get_user_defined_types w = (Ok (PDict udts), l2) ->
  Contract.get_sequences w = (Ok (PDict sequences), l3) ->
  Contract.get_tables w = (Ok (PDict tables), l4) ->
  Contract.get_indexes w = (Ok (PDict indexes), l5) ->
  Contract.get_views w = (Ok (PDict views), l6) ->
  Contract.get_procedures w = (Ok (PDict procedures), l7) ->
  Contract.get_functions w = (Ok (PDict functions), l8) ->
  Contract.get_triggers w = (Ok (PDict triggers), l9) ->
  Contract.get_events w = (Ok (PDict events), l10) ->
  Contract.get_synonyms w = (Ok (PDict synonyms), l11) ->
  run_scan_with name type w =
    (Ok (report name type (PList schemas) (PDict udts) (PDict sequences) (PDict tables)
           (PDict indexes) (PDict views) (PDict procedures) (PDict functions)
           (PDict triggers) (PDict events) (PDict synonyms)),
     EvPrint [PStr "🔍 Starting Deep Scan on "; PStr name; PStr "..."] ::
     l1 ++ l2 ++ l3 ++ l4 ++ l5 ++ l6 ++ l7 ++ l8 ++ l9 ++ l10 ++ l11 ++
     summary_lines name schemas (count tables) (count indexes) (count sequences)
       (count views) (count procedures) (count functions) (count triggers)
       (count events) (count synonyms)).
Proof.
  intros H1 H2 H3 H4 H5 H6 H7 H8 H9 H10 H11. unfold run_scan_with.
  rewrite H1, H2, H3, H4, H5, H6, H7, H8, H9, H10, H11.
  unfold print, emit. unfold mbind at 1 2 3 4 5 6 7 8 9 10 11 12, M_bind.
  cbv beta iota zeta. rewrite summary_run.
  unfold mbind, M_bind, mret, M_ret. cbn [app]. by rewrite app_nil_r.
Qed.

Lemma ok_mapping (c : M pyval) :
  returns_mapping c -> (exists v, result c = Ok v) ->
  exists m l, c = (Ok (PDict m), l).
Proof.
  intros Hmap [v Hv]. destruct (Hmap v Hv) as (m & -> & _).
  apply result_inv in Hv as [l Hv]. by exists m, l.
Qed.

Lemma worker_get_schemas_list (w : Worker) (v : pyval) :
  result (Contract.get_schemas (Introspection1.methods w)) = Ok v ->
  exists schemas l, Contract.get_schemas (Introspection1.methods w) = (Ok (PList schemas), l).
Proof.
  destruct w as [src|src]; cbn.
  - intros _. by eexists _, _.
  - unfold SQLServerIntrospector.get_schemas, SQLServerIntrospector.get_schemas_list,
      get_schema_names, ask, result.
    destruct (insp_get_schema_names src) as [names|]; cbn; [|done].
    intros _. by eexists _, _.
Qed.

(** X9. On an agent built with either worker, when each of the eleven
    extraction methods returns, [run_scan] returns the report: the summary
    cannot raise on the workers' results.  The report holds under tables,
    indexes and the four logic keys the mappings the methods of those
    names returned, and the summary prints the number of entries of each
    of them. *)
Theorem run_scan_completes (self : IntrospectionAgent) :
  (forall c, c ∈ scan_order (Introspection1.methods (worker self)) ->
     exists v, result c = Ok v) ->
  exists r tables indexes views procedures functions triggers,
    result (run_scan self) = Ok r /\
    field "tables" r = Some (PDict tables) /\
    field "indexes" r = Some (PDict indexes) /\
    (exists logic, field "logic" r = Some logic /\
       field "views" logic = Some (PDict views) /\
       field "procedures" logic = Some (PDict procedures) /\
       field "functions" logic = Some (PDict functions) /\
       field "triggers" logic = Some (PDict triggers)) /\
    Forall (fun line => EvPrint line ∈ log (run_scan self))
      [[PStr "   ├─ Tables:         "; PInt (count tables)];
       [PStr "   ├─ Indexes:        "; PInt (count indexes)];
       [PStr "   ├─ Views:          "; PInt (count views)];
       [PStr "   ├─ Procedures:     "; PInt (count procedures)];
       [PStr "   ├─ Functions:      "; PInt (count functions)];
       [PStr "   └─ Triggers:       "; PInt (count triggers)]] /\
    result (Contract.get_tables (Introspection1.methods (worker self)))
      = Ok (PDict tables) /\
    result (Contract.get_indexes (Introspection1.methods (worker self)))
      = Ok (PDict indexes) /\
    result (Contract.get_views (Introspection1.methods (worker self)))
      = Ok (PDict views) /\
    result (Contract.get_procedures (Introspection1.methods (worker self)))
      = Ok (PDict procedures) /\
    result (Contract.get_functions (Introspection1.methods (worker self)))
      = Ok (PDict functions) /\
    result (Contract.get_triggers (Introspection1.methods (worker self)))
      = Ok (PDict triggers).
Proof.
  intros Hall. set (w := Introspection1.methods (worker self)) in *.
  assert (Forall returns_mapping (mapping_methods w)) as Hmaps.
  { unfold w. destruct (worker self);
      [apply mysql_returns_mappings|apply mssql_returns_mappings]. }
  unfold mapping_methods in Hmaps.
  repeat match goal with
  | H : Forall _ (_ :: _) |- _ =>
      let Hmap := fresh "Hmap" in apply Forall_cons in H as [Hmap H]
  end.
  assert (forall c, c ∈ scan_order w -> returns_mapping c -> exists m l, c = (Ok (PDict m), l))
    as Hshape by (intros c Hc Hm; apply ok_mapping; auto).
  destruct (Hall (Contract.get_schemas w)) as [v1 Hv1]; [by left|].
  apply worker_get_schemas_list in Hv1 as (schemas & l1 & R1).
  unfold scan_order in Hshape.
  destruct (Hshape (Contract.get_user_defined_types w)) as (udts & l2 & R2);
    [set_solver|done|].
  destruct (Hshape (Contract.get_sequences w)) as (sequences & l3 & R3);
    [set_solver|done|].
  destruct (Hshape (Contract.get_tables w)) as (tables & l4 & R4); [set_solver|done|].
  destruct (Hshape (Contract.get_indexes w)) as (indexes & l5 & R5); [set_solver|done|].
  destruct (Hshape (Contract.get_views w)) as (views & l6 & R6); [set_solver|done|].
  destruct (Hshape (Contract.get_procedures w)) as (procedures & l7 & R7);
    [set_solver|done|].
  destruct (Hshape (Contract.get_functions w)) as (functions & l8 & R8);
    [set_solver|done|].
  destruct (Hshape (Contract.get_triggers w)) as (triggers & l9 & R9);
    [set_solver|done|].
  destruct (Hshape (Contract.get_events w)) as (events & l10 & R10); [set_solver|done|].
  destruct (Hshape (Contract.get_synonyms w)) as (synonyms & l11 & R11);
    [set_solver|done|].
  pose proof (run_scan_with_run (db_name self) (db_type self) w schemas udts sequences
    tables indexes views procedures functions triggers events synonyms
    l1 l2 l3 l4 l5 l6 l7 l8 l9 l10 l11 R1 R2 R3 R4 R5 R6 R7 R8 R9 R10 R11) as Hrun.
  eexists _, tables, indexes, views, procedures, functions, triggers.
  unfold run_scan. fold w. rewrite Hrun. unfold result, log. cbn [fst snd].
  split; [reflexivity|]. split; [reflexivity|]. split; [reflexivity|].
  split.
  { eexists. split; [reflexivity|]. by repeat split. }
  split.
  { repeat apply Forall_cons_2; try apply Forall_nil_2;
      right; rewrite !elem_of_app; do 11 right; unfold summary_lines;
      repeat first [apply list_elem_of_here | apply list_elem_of_further]. }
  rewrite R4, R5, R6, R7, R8, R9. by repeat split.
Qed.

(** X9 at an agent on the sample MySQL database: the scan returns and
    the summary counts its two tables and its three views' two entries. *)
Lemma run_scan_completes_witness :
  (exists r, result (run_scan world_agent) = Ok r) /\
  EvPrint [PStr "   ├─ Tables:         "; PInt 2] ∈ log (run_scan world_agent) /\
  EvPrint [PStr "   ├─ Views:          "; PInt 2] ∈ log (run_scan world_agent).
Proof.
  destruct (run_scan_completes world_agent)
    as (r & tables & indexes & views & procedures & functions & triggers &
        Hr & Ht & _ & (logic & Hl & Hv & _) & Hlines & _).
  { intros c Hc. apply list_elem_of_In in Hc. cbn in Hc.
    repeat (destruct Hc as [<-|Hc]; [eexists; vm_compute; reflexivity|]).
    destruct Hc. }
  assert (match result (run_scan world_agent) with
          | Ok r => (size <$> (match field "tables" r with
                               | Some (PDict m) => Some m | _ => None end),
                     size <$> (match field "logic" r ≫= field "views" with
                               | Some (PDict m) => Some m | _ => None end))
          | Err _ => (None, None)
          end = (Some 2%nat, Some 2%nat)) as Hsizes by (vm_compute; reflexivity).
  rewrite Hr in Hsizes. rewrite Ht, Hl in Hsizes. cbn in Hsizes. rewrite Hv in Hsizes.
  injection Hsizes as Hst Hsv.
  split; [by exists r|].
  apply Forall_cons in Hlines as [Htables Hlines].
  apply Forall_cons in Hlines as [_ Hlines].
  apply Forall_cons in Hlines as [Hviews _].
  unfold count in Htables, Hviews. rewrite Hst in Htables. rewrite Hsv in Hviews.
  by split.
Defined.

(** ** The scan stops at the first failure *)

Lemma run_all_fails_fast (pre post : list (M pyval)) (c : M pyval) (e : exn) :
  (forall c', c' ∈ pre -> exists v, result c' = Ok v) ->
  result c = Err e ->
  run_all (pre ++ c :: post) = (Err e, (pre ≫= log) ++ log c).
Proof.
  intros Hpre Hc. induction pre as [|p pre IH]; cbn [app run_all].
  - destruct c as [[v|e'] l]; cbn in Hc; [done|]. by injection Hc as ->.
  - destruct (Hpre p) as [v Hv]; [by left|].
    apply result_inv in Hv as [l Hv]. rewrite (bind_run _ _ v l Hv).
    rewrite IH by (intros c' Hc'; apply Hpre; by right).
    rewrite bind_cons. unfold log at 2. rewrite Hv. cbn. by rewrite app_assoc.
Qed.

Lemma run_scan_with_run_all (name type : string) (w : BaseIntrospector) (e : exn)
    (l : list event) :
  run_all (scan_order w) = (Err e, l) ->
  run_scan_with name type w =
    (Err e, EvPrint [PStr "🔍 Starting Deep Scan on "; PStr name; PStr "..."] :: l).
Proof.
  unfold scan_order, run_scan_with, run_all, print, emit.
  destruct (Contract.get_schemas w) as [[v1|e1] l1]; [|by intros [= -> ->]].
  destruct (Contract.get_user_defined_types w) as [[v2|e2] l2]; [|by intros [= -> <-]].
  destruct (Contract.get_sequences w) as [[v3|e3] l3]; [|by intros [= -> <-]].
  destruct (Contract.get_tables w) as [[v4|e4] l4]; [|by intros [= -> <-]].
  destruct (Contract.get_indexes w) as [[v5|e5] l5]; [|by intros [= -> <-]].
  destruct (Contract.get_views w) as [[v6|e6] l6]; [|by intros [= -> <-]].
  destruct (Contract.get_procedures w) as [[v7|e7] l7]; [|by intros [= -> <-]].
  destruct (Contract.get_functions w) as [[v8|e8] l8]; [|by intros [= -> <-]].
  destruct (Contract.get_triggers w) as [[v9|e9] l9]; [|by intros [= -> <-]].
  destruct (Contract.get_events w) as [[v10|e10] l10]; [|by intros [= -> <-]].
  destruct (Contract.get_synonyms w) as [[v11|e11] l11]; [|by intros [= -> <-]].
  intros H. by cbn in H.
Qed.

(** X10. [run_scan] stops at the first extraction method that raises:
    when the methods before it in the call order returned and it raises
    [e], the scan raises [e] itself, and its event log ends with that
    method's events: no later method is called and no summary is
    printed. *)
Theorem run_scan_fails_fast (name type : string) (w : BaseIntrospector)
    (pre post : list (M pyval)) (c : M pyval) (e : exn) :
  scan_order w = pre ++ c :: post ->
  (forall c', c' ∈ pre -> exists v, result c' = Ok v) ->
  result c = Err e ->
  run_scan_with name type w =
    (Err e,
     EvPrint [PStr "🔍 Starting Deep Scan on "; PStr name; PStr "..."] ::
     (pre ≫= log) ++ log c).
Proof.
  intros Horder Hpre Hc. apply run_scan_with_run_all. rewrite Horder.
  by apply run_all_fails_fast.
Qed.

(** X10 at the sample database of C1, whose first procedure cannot be
    shown: the scan raises that error, and the failed fetch is the last
    thing it did. *)
Lemma run_scan_fails_fast_witness :
  result (run_scan_with "MySQL (Sakila)" "mysql" (Introspection1.methods (MySQLWorker sakila)))
    = Err (db_error "execute command denied to user") /\
  last (log (run_scan_with "MySQL (Sakila)" "mysql"
               (Introspection1.methods (MySQLWorker sakila))))
    = Some (EvExecute "SHOW CREATE PROCEDURE film_in_stock").
Proof.
  set (w := Introspection1.methods (MySQLWorker sakila)).
  rewrite (run_scan_fails_fast "MySQL (Sakila)" "mysql" w
             [Contract.get_schemas w; Contract.get_user_defined_types w;
              Contract.get_sequences w; Contract.get_tables w;
              Contract.get_indexes w; Contract.get_views w]
             [Contract.get_functions w; Contract.get_triggers w;
              Contract.get_events w; Contract.get_synonyms w]
             (Contract.get_procedures w)
             (db_error "execute command denied to user")).
  - split; [reflexivity|]. vm_compute. reflexivity.
  - reflexivity.
  - intros c' Hc'. apply list_elem_of_In in Hc'. cbn in Hc'.
    repeat (destruct Hc' as [<-|Hc']; [eexists; vm_compute; reflexivity|]).
    destruct Hc'.
  - vm_compute. reflexivity.
Defined.

(** ** Building the five-method agent *)

Lemma prefix_occurs (needle hay : string) :
  String.prefix needle hay = true <-> exists post, hay = needle +:+ post.
Proof.
  revert needle. induction hay as [|b hay IH]; intros [|a needle]; cbn.
  - split; [by exists ""|done].
  - split; [done|]. by intros [post [=]].
  - split; [by exists (String b hay)|done].
  - destruct (Ascii.ascii_dec a b) as [->|Hne].
    + rewrite IH. split; intros [post Hpost]; exists post.
      * by rewrite Hpost.
      * by injection Hpost.
    + split; [done|]. intros [post [= ? _]]. done.
Qed.

Lemma contains_occurs (needle hay : string) :
  Introspection.contains needle hay = true <-> occurs_in needle hay.
Proof.
  unfold occurs_in. induction hay as [|a hay IH].
  - cbn [Introspection.contains]. rewrite orb_false_r, prefix_occurs. split.
    + intros [post Hpost]. by exists "", post.
    + intros ([|b pre] & post & Heq); [by exists post|done].
  - cbn [Introspection.contains]. rewrite orb_true_iff, IH, prefix_occurs. split.
    + intros [[post Hpost]|(pre & post & Heq)].
      * by exists "", post.
      * exists (String a pre), post. cbn. by rewrite Heq.
    + intros ([|b pre] & post & Heq).
      * left. by exists post.
      * right. injection Heq as _ Heq. by exists pre, post.
Qed.

Lemma drivername_db_uri (env : Env) :
  Introspection.drivername (Introspection.db_uri_of env) = "mysql+mysqlconnector".
Proof.
  unfold Introspection.db_uri_of.
  generalize (env_str env "MYSQL_USER" +:+ ":" +:+ env_str env "MYSQL_PASSWORD" +:+ "@" +:+
              env_str env "MYSQL_HOST" +:+ ":" +:+ env_str env "MYSQL_PORT" +:+ "/" +:+
              env_str env "MYSQL_DB").
  intros rest. cbn. by destruct rest.
Qed.

(** X11. Whatever the environment holds, the five-method agent detects
    the driver [mysql+mysqlconnector] and takes the MySQL branch of its
    routing: the constructor creates the engine, prints the detected
    driver and the selected strategy, and inspects the engine, in that
    order and nothing else.  It returns the agent with the MySQL worker
    when both steps succeed, and raises only what [create_engine] or the
    inspection raises: the PostgreSQL, SQL Server and unknown-driver
    branches are never taken. *)
Theorem five_method_init_selects_mysql (env : Env) :
  (forall e, create_engine env (Introspection.db_uri_of env) = Err e ->
     Introspection.__init__ env =
       (Err e, [EvCreateEngine (Introspection.db_uri_of env)])) /\
  (forall src, create_engine env (Introspection.db_uri_of env) = Ok src ->
     Introspection.__init__ env =
       (match eng_inspect src with
        | Ok _ => Ok {| Introspection.db_uri := Introspection.db_uri_of env;
                        Introspection.engine := src;
                        Introspection.driver_name := "mysql+mysqlconnector";
                        Introspection.worker :=
                          Introspection.MySQLIntrospector.methods src |}
        | Err e => Err e
        end,
        [EvCreateEngine (Introspection.db_uri_of env);
         EvPrint [PStr "🔌 Connection Established. Driver Detected: [";
                  PStr "mysql+mysqlconnector"; PStr "]"];
         EvPrint [PStr "🚀 Selecting Strategy: MySQL Worker"];
         EvInspect])) /\
  (forall e, result (Introspection.__init__ env) = Err e ->
     create_engine env (Introspection.db_uri_of env) = Err e \/
     exists src, create_engine env (Introspection.db_uri_of env) = Ok src /\
       eng_inspect src = Err e).
Proof.
  assert (forall src, create_engine env (Introspection.db_uri_of env) = Ok src ->
     Introspection.__init__ env =
       (match eng_inspect src with
        | Ok _ => Ok {| Introspection.db_uri := Introspection.db_uri_of env;
                        Introspection.engine := src;
                        Introspection.driver_name := "mysql+mysqlconnector";
                        Introspection.worker :=
                          Introspection.MySQLIntrospector.methods src |}
        | Err e => Err e
        end,
        [EvCreateEngine (Introspection.db_uri_of env);
         EvPrint [PStr "🔌 Connection Established. Driver Detected: [";
                  PStr "mysql+mysqlconnector"; PStr "]"];
         EvPrint [PStr "🚀 Selecting Strategy: MySQL Worker"];
         EvInspect])) as Hok.
  { intros src Heng. unfold Introspection.__init__. cbv zeta.
    rewrite drivername_db_uri.
    change (Introspection.contains "mysql" "mysql+mysqlconnector") with true.
    unfold print, emit, inspect, ask, mbind, M_bind, mret, M_ret. rewrite Heng.
    by destruct (eng_inspect src) as [[]|e]. }
  split; [|split; [exact Hok|]].
  - intros e Heng. unfold Introspection.__init__, ask. cbv zeta. by rewrite Heng.
  - intros e He.
    destruct (create_engine env (Introspection.db_uri_of env)) as [src|e'] eqn:Heng.
    + right. exists src. split; [done|]. rewrite (Hok src eq_refl) in He.
      unfold result in He. cbn in He. by destruct (eng_inspect src) as [[]|]; [|injection He as ->].
    + left. unfold Introspection.__init__, ask, result in He. cbv zeta in He.
      rewrite Heng in He. cbn in He. by injection He as ->.
Qed.

(** X11 at a reachable server and at one that refuses the inspection. *)
Lemma five_method_init_selects_mysql_witness :
  (exists a, result (Introspection.__init__ (env_of quiet_source)) = Ok a /\
     Introspection.driver_name a = "mysql+mysqlconnector" /\
     Introspection.worker a = Introspection.MySQLIntrospector.methods quiet_source) /\
  result (Introspection.__init__ (env_of unreachable))
    = Err (db_error "Can't connect to MySQL server on 'localhost'").
Proof.
  split.
  - destruct (five_method_init_selects_mysql (env_of quiet_source)) as (_ & H & _).
    rewrite (H quiet_source eq_refl). by eexists.
  - destruct (five_method_init_selects_mysql (env_of unreachable)) as (_ & H & _).
    by rewrite (H unreachable eq_refl).
Defined.

(** ** The deep scan of the five-method agent *)

Lemma mysql_five_returns_mappings (src : Source) :
  Forall returns_mapping (deep_scan_order (Introspection.MySQLIntrospector.methods src)).
Proof.
  unfold deep_scan_order.
  cbn [Introspection.get_tables Introspection.get_views Introspection.get_procedures
       Introspection.get_functions Introspection.get_triggers
       Introspection.MySQLIntrospector.methods].
  repeat lazymatch goal with |- Forall _ _ => constructor end;
    unfold Introspection.MySQLIntrospector.get_tables,
      Introspection.MySQLIntrospector.get_views,
      Introspection.MySQLIntrospector.get_procedures,
      Introspection.MySQLIntrospector.get_functions,
      Introspection.MySQLIntrospector.get_triggers;
    returns_mapping.
Qed.

Lemma run_deep_scan_run (driver_name : string) (database : option string)
    (w : Introspection.BaseIntrospector)
    (tables views procedures functions triggers : gmap atom pyval)
    (l1 l2 l3 l4 l5 : list event) :
  Introspection.get_tables w = (Ok (PDict tables), l1) ->
  Introspection.get_views w = (Ok (PDict views), l2) ->
  Introspection.get_procedures w = (Ok (PDict procedures), l3) ->
  Introspection.get_functions w = (Ok (PDict functions), l4) ->
  Introspection.get_triggers w = (Ok (PDict triggers), l5) ->
  run_deep_scan driver_name database w =
    (Ok (deep_report driver_name database (PDict tables) (PDict views)
           (PDict procedures) (PDict functions) (PDict triggers)),
     EvPrint [PStr (NL +:+ "🔍 Starting Deep Introspection Scan...")] ::
     l1 ++ l2 ++ l3 ++ l4 ++ l5 ++
     deep_summary_lines (count tables) (count views) (count procedures)
       (count functions) (count triggers)).
Proof.
  intros H1 H2 H3 H4 H5. unfold run_deep_scan. rewrite H1, H2, H3, H4, H5.
  reflexivity.
Qed.

Lemma run_all_returns (cs : list (M pyval)) (vs : list pyval) (l : list event) :
  run_all cs = (Ok vs, l) -> forall c, c ∈ cs -> exists v, result c = Ok v.
Proof.
  revert vs l. induction cs as [|c cs IH]; intros vs l Hrun c' Hc'.
  - by apply elem_of_nil in Hc'.
  - cbn [run_all] in Hrun.
    apply bind_inv_ok in Hrun as (v & l1 & l2 & Hc & Hrest & _).
    apply bind_inv_ok in Hrest as (vs' & l3 & l4 & Hcs & _ & _).
    apply elem_of_cons in Hc' as [->|Hc'].
    + exists v. unfold result. by rewrite Hc.
    + by apply (IH vs' l3).
Qed.

(** X12. On the five-method MySQL worker, [run_deep_scan] returns exactly
    when each of the five extraction methods returns: the summary cannot
    raise on what the worker produces.  The report then holds the
    mappings the five methods returned under "tables", "views",
    "stored_procedures", "functions" and "triggers", each under the key
    of its method, the methods have run in that order between the
    opening line and the five count lines, and each count is the number
    of entries of the mapping. *)
Theorem run_deep_scan_completes (driver_name : string) (database : option string)
    (src : Source) :
  ((exists r, result (run_deep_scan driver_name database
                        (Introspection.MySQLIntrospector.methods src)) = Ok r) <->
   (forall c, c ∈ deep_scan_order (Introspection.MySQLIntrospector.methods src) ->
      exists v, result c = Ok v)) /\
  (forall r, result (run_deep_scan driver_name database
                       (Introspection.MySQLIntrospector.methods src)) = Ok r ->
     exists tables views procedures functions triggers,
       result (Introspection.get_tables (Introspection.MySQLIntrospector.methods src))
         = Ok (PDict tables) /\
       result (Introspection.get_views (Introspection.MySQLIntrospector.methods src))
         = Ok (PDict views) /\
       result (Introspection.get_procedures (Introspection.MySQLIntrospector.methods src))
         = Ok (PDict procedures) /\
       result (Introspection.get_functions (Introspection.MySQLIntrospector.methods src))
         = Ok (PDict functions) /\
       result (Introspection.get_triggers (Introspection.MySQLIntrospector.methods src))
         = Ok (PDict triggers) /\
       field "tables" r = Some (PDict tables) /\
       field "views" r = Some (PDict views) /\
       field "stored_procedures" r = Some (PDict procedures) /\
       field "functions" r = Some (PDict functions) /\
       field "triggers" r = Some (PDict triggers) /\
       (field "metadata" r ≫= field "source_driver") = Some (PStr driver_name) /\
       (field "metadata" r ≫= field "database") = Some (opt_str database) /\
       log (run_deep_scan driver_name database
              (Introspection.MySQLIntrospector.methods src)) =
         EvPrint [PStr (NL +:+ "🔍 Starting Deep Introspection Scan...")] ::
         (deep_scan_order (Introspection.MySQLIntrospector.methods src) ≫= log) ++
         deep_summary_lines (count tables) (count views) (count procedures)
           (count functions) (count triggers)).
Proof.
  set (w := Introspection.MySQLIntrospector.methods src).
  assert ((forall c, c ∈ deep_scan_order w -> exists v, result c = Ok v) ->
          exists tables views procedures functions triggers l1 l2 l3 l4 l5,
            Introspection.get_tables w = (Ok (PDict tables), l1) /\
            Introspection.get_views w = (Ok (PDict views), l2) /\
            Introspection.get_procedures w = (Ok (PDict procedures), l3) /\
            Introspection.get_functions w = (Ok (PDict functions), l4) /\
            Introspection.get_triggers w = (Ok (PDict triggers), l5)) as Hshape.
  { intros Hall. pose proof (mysql_five_returns_mappings src) as Hmaps. fold w in Hmaps.
    unfold deep_scan_order in Hmaps, Hall.
    apply Forall_cons in Hmaps as [M1 Hmaps]. apply Forall_cons in Hmaps as [M2 Hmaps].
    apply Forall_cons in Hmaps as [M3 Hmaps]. apply Forall_cons in Hmaps as [M4 Hmaps].
    apply Forall_cons in Hmaps as [M5 _].
    destruct (ok_mapping _ M1) as (tables & l1 & R1);
      [apply Hall; repeat first [apply list_elem_of_here | apply list_elem_of_further]|].
    destruct (ok_mapping _ M2) as (views & l2 & R2);
      [apply Hall; repeat first [apply list_elem_of_here | apply list_elem_of_further]|].
    destruct (ok_mapping _ M3) as (procedures & l3 & R3);
      [apply Hall; repeat first [apply list_elem_of_here | apply list_elem_of_further]|].
    destruct (ok_mapping _ M4) as (functions & l4 & R4);
      [apply Hall; repeat first [apply list_elem_of_here | apply list_elem_of_further]|].
    destruct (ok_mapping _ M5) as (triggers & l5 & R5);
      [apply Hall; repeat first [apply list_elem_of_here | apply list_elem_of_further]|].
    by exists tables, views, procedures, functions, triggers, l1, l2, l3, l4, l5. }
  assert ((exists r, result (run_deep_scan driver_name database w) = Ok r) ->
          forall c, c ∈ deep_scan_order w -> exists v, result c = Ok v) as Hback.
  { intros [r Hr]. apply result_inv in Hr as [l Hr]. unfold run_deep_scan in Hr.
    apply bind_inv_ok in Hr as (? & ? & ? & _ & Hr & _).
    apply bind_inv_ok in Hr as (v1 & ? & ? & R1 & Hr & _).
    apply bind_inv_ok in Hr as (v2 & ? & ? & R2 & Hr & _).
    apply bind_inv_ok in Hr as (v3 & ? & ? & R3 & Hr & _).
    apply bind_inv_ok in Hr as (v4 & ? & ? & R4 & Hr & _).
    apply bind_inv_ok in Hr as (v5 & ? & ? & R5 & _ & _).
    intros c Hc. unfold deep_scan_order in Hc. rewrite !elem_of_cons, elem_of_nil in Hc.
    unfold result.
    destruct Hc as [->|[->|[->|[->|[->|[]]]]]];
      [rewrite R1|rewrite R2|rewrite R3|rewrite R4|rewrite R5]; by eexists. }
  split.
  - split; [exact Hback|].
    intros Hall.
    destruct (Hshape Hall)
      as (tables & views & procedures & functions & triggers & l1 & l2 & l3 & l4 & l5 &
          R1 & R2 & R3 & R4 & R5).
    rewrite (run_deep_scan_run _ _ w _ _ _ _ _ _ _ _ _ _ R1 R2 R3 R4 R5). by eexists.
  - intros r Hr.
    destruct (Hshape (Hback (ex_intro _ r Hr)))
      as (tables & views & procedures & functions & triggers & l1 & l2 & l3 & l4 & l5 &
          R1 & R2 & R3 & R4 & R5).
    rewrite (run_deep_scan_run _ _ w _ _ _ _ _ _ _ _ _ _ R1 R2 R3 R4 R5) in Hr |- *.
    injection Hr as <-.
    exists tables, views, procedures, functions, triggers.
    fold w. unfold result at 1 2 3 4 5. rewrite R1, R2, R3, R4, R5.
    do 12 (split; [reflexivity|]).
    unfold deep_scan_order, log at 1. cbn [snd].
    rewrite !bind_cons. cbn [mbind list_bind]. unfold log. rewrite R1, R2, R3, R4, R5. cbn [snd].
    by rewrite app_nil_r, <- !app_assoc.
Qed.

(** X12 at the sample database of C1, where two definitions cannot be
    shown: the deep scan returns all the same and counts the two
    procedures, placeholder included. *)
Lemma run_deep_scan_completes_witness :
  (exists r, result (run_deep_scan "mysql+mysqlconnector" (Some "sakila")
                       (Introspection.MySQLIntrospector.methods sakila)) = Ok r) /\
  EvPrint [PStr "   ⚙️ Procedures: "; PInt 2]
    ∈ log (run_deep_scan "mysql+mysqlconnector" (Some "sakila")
             (Introspection.MySQLIntrospector.methods sakila)).
Proof.
  destruct (run_deep_scan_completes "mysql+mysqlconnector" (Some "sakila") sakila)
    as [[_ Hret] Hrep].
  assert (exists r, result (run_deep_scan "mysql+mysqlconnector" (Some "sakila")
                              (Introspection.MySQLIntrospector.methods sakila)) = Ok r)
    as Hr.
  { apply Hret. intros c Hc. apply list_elem_of_In in Hc. cbn in Hc.
    repeat (destruct Hc as [<-|Hc]; [eexists; vm_compute; reflexivity|]).
    destruct Hc. }
  split; [exact Hr|]. clear Hr.
  assert (EvPrint [PStr "   ⚙️ Procedures: "; PInt 2]
            ∈ log (run_deep_scan "mysql+mysqlconnector" (Some "sakila")
                     (Introspection.MySQLIntrospector.methods sakila))) as Hin.
  { apply list_elem_of_In. vm_compute. tauto. }
  exact Hin.
Defined.

(** ** The tables of the five-method worker *)

Lemma five_table_entry_result (src : Source) (table : string) :
  result (Introspection.MySQLIntrospector.table_entry src table) =
    five_table_value src table.
Proof.
  unfold Introspection.MySQLIntrospector.table_entry, five_table_value, reflect_table,
    get_columns, get_foreign_keys, get_pk_constraint, reflect_indexes, ask, result.
  destruct (insp_get_columns src table None); [|done].
  destruct (insp_get_foreign_keys src table None); [|done].
  destruct (insp_get_pk_constraint src table None); [|done].
  by destruct (insp_get_indexes src table None).
Qed.

(** X13. [get_tables] of the five-method worker is unguarded too, and
    reflects the indexes of each table as well: it returns only if the
    table listing and the four reflection calls of every listed table
    succeed, with exactly the listed names as keys.  A table's descriptor
    then agrees with the one of the eleven-method MySQL worker on type,
    columns and primary key, keeps each foreign key as reflected (name,
    referred schema, referred columns and options included), and carries the
    table's indexes inline, each with its name and columns only. *)
Theorem mysql_five_get_tables (src : Source) :
  unguarded (insp_get_table_names src None) AStr (five_table_value src)
    (Introspection.MySQLIntrospector.get_tables src) /\
  (forall table d, five_table_value src table = Ok d ->
     exists d1 fks indexes,
       mysql_table_value src table = Ok d1 /\
       insp_get_foreign_keys src table None = Ok fks /\
       insp_get_indexes src table None = Ok indexes /\
       field "type" d = field "type" d1 /\
       field "columns" d = field "columns" d1 /\
       field "primary_key" d = field "primary_key" d1 /\
       field "foreign_keys" d =
         Some (PList ((fun fk =>
           PDict (dict_of [("name", opt_str (fk_name fk));
                           ("constrained_columns", str_list (fk_constrained_columns fk));
                           ("referred_schema", opt_str (fk_referred_schema fk));
                           ("referred_table", PStr (fk_referred_table fk));
                           ("referred_columns", str_list (fk_referred_columns fk));
                           ("options",
                            PDict (dict_of ((fun kv => (kv.1, PStr kv.2))
                                              <$> fk_options fk)))]))
           <$> fks)) /\
       field "indexes" d =
         Some (PList ((fun i =>
           PDict (dict_of [("name", opt_str (idx_name i));
                           ("columns", PList (opt_str <$> idx_column_names i))]))
           <$> indexes))).
Proof.
  split.
  - apply (unguarded_loop _ _ (Introspection.MySQLIntrospector.table_entry src)
             (fun d => d) AStr).
    + intros table. rewrite five_table_entry_result.
      by destruct (five_table_value src table).
    + by intros x y [= ->].
  - intros table d. unfold five_table_value, mysql_table_value, reflect_table.
    destruct (insp_get_columns src table None) as [columns|]; [|done].
    destruct (insp_get_foreign_keys src table None) as [fks|]; [|done].
    destruct (insp_get_pk_constraint src table None) as [pk|]; [|done].
    destruct (insp_get_indexes src table None) as [indexes|]; [|done].
    intros [= <-]. eexists _, fks, indexes.
    split; [reflexivity|]. by repeat split.
Qed.

(** X13 at the sample database of C1: the foreign key of [film] is kept
    with its name, referred columns and options. *)
Lemma mysql_five_get_tables_witness :
  exists m film,
    result (Introspection.MySQLIntrospector.get_tables sakila) = Ok (PDict m) /\
    m !! AStr "film" = Some film /\
    field "foreign_keys" film =
      Some (PList [PDict (dict_of [("name", PStr "fk_film_language");
                                   ("constrained_columns", PList [PStr "language_id"]);
                                   ("referred_schema", PNone);
                                   ("referred_table", PStr "language");
                                   ("referred_columns", PList [PStr "language_id"]);
                                   ("options",
                                    PDict (dict_of [("onupdate", PStr "CASCADE")]))])]) /\
    field "indexes" film = Some (PList []).
Proof.
  destruct (mysql_five_get_tables sakila) as [[Hinv Hrun] Hdesc].
  destruct (Hrun ["film"; "actor"] eq_refl) as [m Hm].
  { intros t Ht. apply list_elem_of_In in Ht.
    destruct Ht as [<-|[<-|[]]]; eexists; vm_compute; reflexivity. }
  destruct (Hinv _ Hm) as (xs & m' & [= <-] & [= <-] & Hall & _).
  destruct (Hall "film") as (film & Hfilm & Hmf); [apply list_elem_of_In; cbn; auto|].
  exists m, film. split; [exact Hm|]. split; [exact Hmf|].
  destruct (Hdesc "film" film Hfilm)
    as (d1 & fks & indexes & _ & Hfk & Hidx & _ & _ & _ & Hf & Hi).
  injection Hfk as <-. injection Hidx as <-. split; [exact Hf|exact Hi].
Defined.

(** ** The triggers of the five-method worker *)



(** ** Building the eleven-method agent *)

(** X15. Building an agent for a key of [DB_CONFIGS] announces the
    connection, creates the engine and inspects it, and does nothing else:
    it opens no connection and runs no statement.  It returns only if
    both steps succeed; a failure of engine creation is raised unchanged
    before the engine is inspected, a failure of the inspection is raised
    unchanged as well. *)
Theorem init_failures_propagate (env : Env) (key : string) (cfg : Config) :
  DB_CONFIGS env !! key = Some cfg ->
  (forall e, create_engine env (cfg_url cfg) = Err e ->
     __init__ env key =
       (Err e, [EvPrint [PStr (NL +:+ "🔌 Connecting to "); PStr (cfg_name cfg); PStr "..."];
                EvCreateEngine (cfg_url cfg)])) /\
  (forall src e, create_engine env (cfg_url cfg) = Ok src -> eng_inspect src = Err e ->
     __init__ env key =
       (Err e, [EvPrint [PStr (NL +:+ "🔌 Connecting to "); PStr (cfg_name cfg); PStr "..."];
                EvCreateEngine (cfg_url cfg); EvInspect])) /\
  (forall a, result (__init__ env key) = Ok a ->
     create_engine env (cfg_url cfg) = Ok (engine a) /\
     eng_inspect (engine a) = Ok tt /\
     db_name a = cfg_name cfg /\
     log (__init__ env key) =
       [EvPrint [PStr (NL +:+ "🔌 Connecting to "); PStr (cfg_name cfg); PStr "..."];
        EvCreateEngine (cfg_url cfg); EvInspect]).
Proof.
  intros Hcfg. unfold __init__, init_with, result, log. rewrite Hcfg.
  unfold new_worker, inspect, ask, print, emit.
  destruct (DB_CONFIGS_lookup _ _ _ Hcfg) as [[_ ->]|[_ ->]]; cbn [String.eqb];
    (split; [|split]).
  all: try (intros e ->; reflexivity).
  all: try (intros src e -> Hinsp; cbn; rewrite Hinsp; reflexivity).
  all: intros a; destruct (create_engine env (cfg_url cfg)) as [src|e]; cbn; [|done];
    destruct (eng_inspect src) as [[]|e] eqn:Hinsp; cbn; [|done];
    intros [= <-]; cbn; by rewrite Hinsp.
Qed.

(** X15 at a server that cannot be reached: the agent for key 1 is not
    built, the driver's error comes out as it is, and the inspection was
    the last thing tried. *)
Lemma init_failures_propagate_witness :
  result (__init__ (env_of unreachable) "1")
    = Err (db_error "Can't connect to MySQL server on 'localhost'") /\
  last (log (__init__ (env_of unreachable) "1")) = Some EvInspect.
Proof.
  edestruct (init_failures_propagate (env_of unreachable) "1") as (_ & H & _).
  { vm_compute. reflexivity. }
  rewrite (H unreachable _ eq_refl eq_refl). by split.
Defined.
